(** * Video download resolver: format selection, URL validation and dispatch

    A shallow embedding of the repository's request handlers:
    - the Express application (validator, YouTube and generic adapters,
      Instagram fallback, dispatcher, error translator), module [Server];
    - the YouTube-only serverless handler [src/api/download.js], module
      [ApiDownload].

    JavaScript values are modelled as follows.  Strings are [string]s of
    8-bit code units.  Numbers that the handlers compute with (bitrates,
    frame rates, parsed quality labels, byte counts) are integers, [Z];
    a field that may be missing is an [option], and an arithmetic result
    that may be NaN is an [option Z] with [None] for NaN.  The external
    collaborators (URI syntax check, URL parser, extraction engines) are
    the fields of an environment record, and every call to an engine and
    every [console.error] is recorded in a trace. *)

From Stdlib Require Import String Ascii List ZArith Lia Bool Permutation Sorted DecimalString.
Import ListNotations.

Local Open Scope string_scope.
Local Open Scope Z_scope.

(** ** JavaScript strings *)

Module JsString.

(** [s.includes(needle)] *)
Fixpoint includes (needle s : string) : bool :=
  if prefix needle s then true
  else match s with
       | EmptyString => false
       | String _ s' => includes needle s'
       end.

Fixpoint drop (n : nat) (s : string) : string :=
  match n, s with
  | O, _ => s
  | S n', String _ s' => drop n' s'
  | S _, EmptyString => EmptyString
  end.

(** [s.replace(pat, rep)] with a string pattern: only the first occurrence
    of [pat], wherever it is, is replaced. *)
Fixpoint replace (pat rep s : string) : string :=
  if prefix pat s then rep ++ drop (String.length pat) s
  else match s with
       | EmptyString => EmptyString
       | String c s' => String c (replace pat rep s')
       end.

Fixpoint filter (keep : ascii -> bool) (s : string) : string :=
  match s with
  | EmptyString => EmptyString
  | String c s' => if keep c then String c (filter keep s') else filter keep s'
  end.

Fixpoint map (f : ascii -> ascii) (s : string) : string :=
  match s with
  | EmptyString => EmptyString
  | String c s' => String (f c) (map f s')
  end.

Definition upper (c : ascii) : ascii :=
  let n := nat_of_ascii c in
  if (97 <=? n)%nat && (n <=? 122)%nat then ascii_of_nat (n - 32) else c.

(** [s.toUpperCase()] on ASCII letters. *)
Definition toUpperCase (s : string) : string := map upper s.

(** Truthiness of a string value: [undefined] and the empty string are falsy. *)
Definition truthy (v : option string) : bool :=
  match v with
  | Some (String _ _) => true
  | _ => false
  end.

(** [v || d] where [v] is a string or [undefined] and [d] a string. *)
Definition orElse (v : option string) (d : string) : string :=
  match v with
  | Some (String c s) => String c s
  | _ => d
  end.

End JsString.

(** ** JavaScript numbers *)

Module JsNumber.

(** A number or NaN. *)
Definition num := option Z.

(** [a - b]; [undefined] converts to NaN and NaN is absorbing. *)
Definition sub (a b : num) : num :=
  match a, b with
  | Some x, Some y => Some (x - y)
  | _, _ => None
  end.

(** [v || 0]: NaN, [undefined] and 0 all give 0. *)
Definition orZero (v : num) : Z :=
  match v with
  | Some x => x
  | None => 0
  end.

Definition isWhiteSpace (c : ascii) : bool :=
  let n := nat_of_ascii c in
  ((9 <=? n)%nat && (n <=? 13)%nat) || (n =? 32)%nat.

Fixpoint trimStart (s : string) : string :=
  match s with
  | String c s' => if isWhiteSpace c then trimStart s' else s
  | EmptyString => EmptyString
  end.

Definition digitValue (c : ascii) : option Z :=
  let n := nat_of_ascii c in
  if (48 <=? n)%nat && (n <=? 57)%nat then Some (Z.of_nat n - 48)
  else if (97 <=? n)%nat && (n <=? 122)%nat then Some (Z.of_nat n - 87)
  else if (65 <=? n)%nat && (n <=? 90)%nat then Some (Z.of_nat n - 55)
  else None.

(** The longest prefix of radix-[r] digits, read as a number; [acc] is NaN
    until a digit has been read. *)
Fixpoint digits (r : Z) (s : string) (acc : num) : num :=
  match s with
  | String c s' =>
      match digitValue c with
      | Some d => if d <? r then digits r s' (Some (r * orZero acc + d)) else acc
      | None => acc
      end
  | EmptyString => acc
  end.

(** [parseInt(s)] with no radix argument: leading white space, an optional
    sign, an optional [0x] prefix, then the longest run of digits; NaN when
    there is no digit. *)
Definition parseInt (s : string) : num :=
  let s1 := trimStart s in
  let '(sign, s2) :=
    match s1 with
    | String "-" t => (-1, t)
    | String "+" t => (1, t)
    | _ => (1, s1)
    end in
  let '(r, s3) :=
    if prefix "0x" s2 || prefix "0X" s2 then (16, JsString.drop 2 s2) else (10, s2) in
  option_map (Z.mul sign) (digits r s3 None).

(** [parseInt(v)] when [v] may be [undefined]: the text of [undefined] has
    no digit. *)
Definition parseIntOpt (v : option string) : num :=
  match v with
  | Some s => parseInt s
  | None => None
  end.

Definition showNat (n : Z) : string := NilZero.string_of_uint (N.to_uint (Z.to_N n)).

(** The decimal text of [n / 100] for [0 <= n], as number-to-string
    conversion prints it: no trailing zero after the point. *)
Definition showHundredths (n : Z) : string :=
  let whole := n / 100 in
  let frac := n mod 100 in
  if frac =? 0 then showNat whole
  else if frac mod 10 =? 0 then showNat whole ++ "." ++ showNat (frac / 10)
  else if frac <? 10 then showNat whole ++ ".0" ++ showNat frac
  else showNat whole ++ "." ++ showNat frac.

End JsNumber.

(** ** Array.prototype.sort

    [sort] is stable and orders by the sign of the comparison function; a
    NaN result counts as +0 (the two elements compare equal).  The model is
    a stable insertion sort; for a comparison function that is a consistent
    ordering of the elements of the array (in particular when all of them
    compare equal) every conforming implementation returns the same
    array.  Where it is not, the order is implementation-defined, and
    nothing below relies on the model there beyond the result being an
    arrangement of the same elements. *)

Module JsArray.

Section Sort.
Context {A : Type}.
Variable comparefn : A -> A -> JsNumber.num.

Definition SortCompare (x y : A) : Z := JsNumber.orZero (comparefn x y).

Fixpoint insert (x : A) (l : list A) : list A :=
  match l with
  | [] => [x]
  | y :: l' => if SortCompare x y <=? 0 then x :: y :: l' else y :: insert x l'
  end.

Fixpoint sort (l : list A) : list A :=
  match l with
  | [] => []
  | x :: l' => insert x (sort l')
  end.
End Sort.

End JsArray.

(** ** Encoding descriptors and format selection *)

Module Ytdl.
(** One entry of [info.formats] as delivered by the YouTube engine.  The
    engine sets [hasAudio] and [hasVideo] on every entry; for the other
    optional properties [None] is a property that is absent ([undefined],
    which arithmetic reads as NaN; a [null] number would read as 0 and is
    the value [Some 0] here). *)
Record Format := mkFormat {
  hasAudio : bool;
  hasVideo : bool;
  bitrate : option Z;
  qualityLabel : option string;
  fps : option Z;
  container : string;
  contentLength : option string;
  url : option string
}.

(** What [ytdlCore.getInfo(url)] resolves to. *)
Record VideoDetails := { title : string }.
Record Info := { videoDetails : VideoDetails; formats : list Format }.
End Ytdl.

Import Ytdl.

(** [(a, b) => b.bitrate - a.bitrate] *)
Definition compareBitrate (a b : Format) : JsNumber.num :=
  JsNumber.sub (bitrate b) (bitrate a).

(** [parseInt(f.qualityLabel) || 0] *)
Definition quality (f : Format) : Z :=
  JsNumber.orZero (JsNumber.parseIntOpt (qualityLabel f)).

(** [f.fps || 0] *)
Definition fpsOrZero (f : Format) : Z := JsNumber.orZero (fps f).

(** The video comparison function: quality first, then frames per second. *)
Definition compareQuality (a b : Format) : JsNumber.num :=
  let aQuality := quality a in
  let bQuality := quality b in
  if negb (aQuality =? bQuality) then Some (bQuality - aQuality)
  else Some (fpsOrZero b - fpsOrZero a).

Definition audioOnly (f : Format) : bool := hasAudio f && negb (hasVideo f).
Definition audioAndVideo (f : Format) : bool := hasVideo f && hasAudio f.

(** The selection written inline in each handler (the same text in all of
    them): filter, sort, take element 0; [None] is [undefined]. *)
Definition selectFormat (type : string) (formats : list Format) : option Format :=
  if (type =? "audio")%string
  then hd_error (JsArray.sort compareBitrate (List.filter audioOnly formats))
  else hd_error (JsArray.sort compareQuality (List.filter audioAndVideo formats)).

(** ** Effects: provider calls, logging and exceptions *)

Module Ydl.
(** The option object handed to [youtubedl(url, options)]. *)
Record Options := {
  dumpJson : bool;
  noCheckCertificates : bool;
  noWarnings : bool;
  preferFreeFormats : bool;
  addHeader : list string;
  extractAudio : bool;
  audioFormat : option string;
  audioQuality : option string;
  format : option string;
  getUrl : bool
}.

(** One entry of the generic engine's [info.formats]. *)
Record Format := {
  abr : option Z;
  height : option Z;
  url : option string;
  filesize : option Z;
  ext : option string
}.

(** The JSON document the generic engine prints under [dumpJson]. *)
Record Info := {
  info_url : option string;
  info_title : option string;
  info_formats : option (list Format)
}.
End Ydl.

Module Instagram.
(** What [getInstagram(url)] resolves to: [{ url: [string] }]. *)
Record Links := { url : option (list string) }.
End Instagram.

Inductive Event :=
| CallGetInfo (url : string)
| CallYoutubedl (url : string) (options : Ydl.Options)
| CallGetInstagram (url : string)
| ConsoleError (label message : string).

(** How an awaited call or a block ends: with a value, or with a thrown
    [Error] carrying [message]. *)
Inductive Outcome (A : Type) :=
| Returned (a : A)
| Thrown (message : string).
Arguments Returned {A} a.
Arguments Thrown {A} message.

(** A computation: the events it produced, in order, and its outcome. *)
Definition Eff (A : Type) : Type := list Event * Outcome A.

Definition ret {A} (a : A) : Eff A := ([], Returned a).
Definition throw {A} (message : string) : Eff A := ([], Thrown message).

Definition bind {A B} (m : Eff A) (k : A -> Eff B) : Eff B :=
  match m with
  | (t, Returned a) => let '(t', o) := k a in ((t ++ t')%list, o)
  | (t, Thrown e) => (t, Thrown e)
  end.

(** [try { m } catch (error) { handler(error.message) }] *)
Definition try_catch {A} (m : Eff A) (handler : string -> Eff A) : Eff A :=
  match m with
  | (t, Thrown e) => let '(t', o) := handler e in ((t ++ t')%list, o)
  | (t, Returned a) => (t, Returned a)
  end.

(** An awaited call to a collaborator, recorded in the trace. *)
Definition call {A} (ev : Event) (o : Outcome A) : Eff A := ([ev], o).

Definition console_error (label message : string) : Eff unit :=
  ([ConsoleError label message], Returned tt).

Notation "x <- m ;; k" := (bind m (fun x => k))
  (at level 61, m at next level, right associativity).
Notation "m ;;; k" := (bind m (fun _ => k))
  (at level 61, right associativity).

Definition trace {A} (m : Eff A) : list Event := fst m.
Definition outcome {A} (m : Eff A) : Outcome A := snd m.

Definition isProviderCall (ev : Event) : bool :=
  match ev with
  | ConsoleError _ _ => false
  | _ => true
  end.

Definition isInstagramCall (ev : Event) : bool :=
  match ev with
  | CallGetInstagram _ => true
  | _ => false
  end.

(** The collaborators of a handler.  [hostname url] is
    [new URL(url).hostname], [None] when the constructor throws.
    [youtubedl] is the generic engine called with [dumpJson] (it resolves to
    the parsed document, or to nothing), [youtubedlText] the same engine
    called with [getUrl] (it resolves to the printed text). *)
Record Env := {
  isUri : string -> bool;
  hostname : string -> option string;
  getInfo : string -> Outcome Ytdl.Info;
  youtubedl : string -> Ydl.Options -> Outcome (option Ydl.Info);
  youtubedlText : string -> Ydl.Options -> Outcome (option string);
  getInstagram : string -> Outcome (option Instagram.Links)
}.

(** ** HTTP requests and responses *)

Module Req.
Record Body := { url : option string; type : option string }.
Record Request := { method : string; body : Body }.
End Req.

(** [const { url, type = 'video' } = req.body]: the default applies when
    the property is missing. *)
Definition requestedType (body : Req.Body) : string :=
  match Req.type body with
  | Some t => t
  | None => "video"
  end.

(** A JSON body; a [download_url] that is [undefined] is [None]. *)
Inductive Payload :=
| ResolvedDownload (title format filesize : string) (download_url : option string)
| ErrorBody (error : string).

Inductive Response :=
| Json (status : Z) (payload : Payload)
| Ended (status : Z).

Definition dquote : ascii := ascii_of_nat 34.

(** The class of the title pattern: the characters that are removed. *)
Definition unsafeChar (c : ascii) : bool :=
  existsb (Ascii.eqb c) ["<"; ">"; ":"; dquote; "/"; "\"; "|"; "?"; "*"]%char.

(** [title.replace(/[<>:...]+/g, '')]: every run of unsafe characters goes. *)
Definition sanitizeTitle (title : string) : string :=
  JsString.filter (fun c => negb (unsafeChar c)) title.

(** ** The Express application *)

Module Server.

(** What an adapter returns. *)
Record Result := {
  title : string;
  format : string;
  filesize : string;
  download_url : option string
}.

Inductive Validation :=
| Invalid (error : string)
| Valid (domain : string).

Definition getDomain (env : Env) (url : string) : option string :=
  match hostname env url with
  | Some h => Some (JsString.replace "www." "" h)
  | None => None
  end.

Definition allowedDomains : list string :=
  [ "youtube.com"; "youtu.be"; "tiktok.com"; "instagram.com";
    "facebook.com"; "fb.watch"; "twitter.com"; "x.com";
    "reddit.com"; "vimeo.com"; "dailymotion.com"; "bilibili.com";
    "twitch.tv"; "vimeo.com"; "soundcloud.com"; "streamable.com" ].

Definition validateVideoUrl (env : Env) (url : string) : Validation :=
  if negb (isUri env url) then Invalid "Invalid URL format"
  else
    match getDomain env url with
    | Some (String c d as domain) =>
        let isAllowed := existsb (fun allowed => JsString.includes allowed domain) allowedDomains in
        if negb isAllowed then Invalid "Website not supported. Please check the URL."
        else Valid domain
    | _ => Invalid "Invalid URL"
    end.

Definition sizes : list string := ["Bytes"; "KB"; "MB"; "GB"].

(** [formatFileSize(bytes)].  The logarithm and the division are taken
    exactly: [i] is the floor of the base-1024 logarithm, the quotient is
    rounded half up to two decimals ([toFixed(2)]) and printed without
    trailing zeros ([parseFloat]).  A negative argument has a NaN logarithm,
    and an index past the table reads [undefined]. *)
Definition formatFileSize (bytes : Z) : string :=
  if bytes =? 0 then "0 Bytes"
  else if bytes <? 0 then "NaN undefined"
  else
    let k := 1024 in
    let i := Z.log2 bytes / 10 in
    let hundredths := (200 * bytes + k ^ i) / (2 * k ^ i) in
    JsNumber.showHundredths hundredths ++ " " ++ nth (Z.to_nat i) sizes "undefined".

Definition getYouTubeInfo (env : Env) (url type : string) : Eff Result :=
  try_catch
    (info <- call (CallGetInfo url) (getInfo env url) ;;
     let videoDetails := Ytdl.videoDetails info in
     match selectFormat type (Ytdl.formats info) with
     | None => throw "No suitable format found"
     | Some format =>
         let downloadUrl := Ytdl.url format in
         let contentLength := JsString.orElse (Ytdl.contentLength format) "Unknown" in
         ret {| title := sanitizeTitle (Ytdl.title videoDetails);
                format := if (type =? "audio")%string then "MP3"
                          else JsString.toUpperCase (Ytdl.container format);
                filesize := formatFileSize (JsNumber.orZero (JsNumber.parseInt contentLength));
                download_url := downloadUrl |}
     end)
    (fun message =>
       console_error "YouTube error:" message ;;;
       throw "Failed to fetch YouTube video. Make sure the video is public.").

Definition dumpOptions (type : string) : Ydl.Options :=
  let audio := (type =? "audio")%string in
  {| Ydl.dumpJson := true;
     Ydl.noCheckCertificates := true;
     Ydl.noWarnings := true;
     Ydl.preferFreeFormats := true;
     Ydl.addHeader := ["referer:youtube.com"; "user-agent:Mozilla/5.0"];
     Ydl.extractAudio := audio;
     Ydl.audioFormat := if audio then Some "mp3" else None;
     Ydl.audioQuality := if audio then Some "0" else None;
     Ydl.format := if audio then None
                   else Some "bestvideo[ext=mp4]+bestaudio[ext=m4a]/best[ext=mp4]/best";
     Ydl.getUrl := false |}.

Definition getUrlOptions (type : string) : Ydl.Options :=
  {| Ydl.dumpJson := false;
     Ydl.noCheckCertificates := false;
     Ydl.noWarnings := false;
     Ydl.preferFreeFormats := false;
     Ydl.addHeader := [];
     Ydl.extractAudio := false;
     Ydl.audioFormat := None;
     Ydl.audioQuality := None;
     Ydl.format := Some (if (type =? "audio")%string then "bestaudio" else "best");
     Ydl.getUrl := true |}.

(** The comparison function of the generic adapter's sort. *)
Definition compareGeneric (type : string) (a b : Ydl.Format) : JsNumber.num :=
  if (type =? "audio")%string
  then Some (JsNumber.orZero (Ydl.abr b) - JsNumber.orZero (Ydl.abr a))
  else Some (JsNumber.orZero (Ydl.height b) - JsNumber.orZero (Ydl.height a)).

(** The link, size and container chosen from the engine's document. *)
Definition chooseLink (type : string) (info : Ydl.Info)
  : Eff (option string * string * string) :=
  let filesize := "Unknown" in
  let format := if (type =? "audio")%string then "MP3" else "MP4" in
  if (type =? "audio")%string && JsString.truthy (Ydl.info_url info)
  then ret (Ydl.info_url info, filesize, format)
  else if JsString.truthy (Ydl.info_url info)
  then ret (Ydl.info_url info, filesize, format)
  else
    match Ydl.info_formats info with
    | Some (f :: fs) =>
        match JsArray.sort (compareGeneric type) (f :: fs) with
        | bestFormat :: _ =>
            ret (Ydl.url bestFormat,
                 formatFileSize (JsNumber.orZero (Ydl.filesize bestFormat)),
                 match Ydl.ext bestFormat with
                 | Some (String c e as ext) => JsString.toUpperCase ext
                 | _ => format
                 end)
        | [] => throw "Cannot read properties of undefined (reading 'url')"
        end
    | _ => throw "No download link available"
    end.

(** The [try] block of [getGenericInfo]. *)
Definition getGenericInfo_try (env : Env) (url type : string) : Eff Result :=
  let options := dumpOptions type in
  info <- call (CallYoutubedl url options) (youtubedl env url options) ;;
  match info with
  | None => throw "No video information found"
  | Some info =>
      chosen <- chooseLink type info ;;
      let '(downloadUrl, filesize, format) := chosen in
      downloadUrl <-
        (if negb (JsString.truthy downloadUrl)
         then call (CallYoutubedl url (getUrlOptions type))
                   (youtubedlText env url (getUrlOptions type))
         else ret downloadUrl) ;;
      ret {| title := sanitizeTitle (JsString.orElse (Ydl.info_title info) "video");
             format := format;
             filesize := filesize;
             download_url := downloadUrl |}
  end.

(** The Instagram branch of the [catch] block: [Some result] when it
    returns from the function, [None] when control falls through to the
    final [throw]. *)
Definition instagramFallback (env : Env) (url : string) : Eff (option Result) :=
  if JsString.includes "instagram.com" url then
    try_catch
      (links <- call (CallGetInstagram url) (getInstagram env url) ;;
       match links with
       | Some {| Instagram.url := Some (first :: _) |} =>
           ret (Some {| title := "Instagram Video";
                        format := "MP4";
                        filesize := "Unknown";
                        download_url := Some first |})
       | _ => ret None
       end)
      (fun igError =>
         console_error "Instagram fallback failed:" igError ;;; ret None)
  else ret None.

Definition getGenericInfo (env : Env) (url type : string) : Eff Result :=
  try_catch (getGenericInfo_try env url type)
    (fun message =>
       console_error "Generic download error:" message ;;;
       r <- instagramFallback env url ;;
       match r with
       | Some result => ret result
       | None => throw ("Failed to download video: " ++ message)
       end).

(** The message selection of the endpoint's [catch] block. *)
Definition errorMessage (message : string) : string :=
  let has s := JsString.includes s message in
  if has "private" || has "unavailable" then "Video is private or unavailable"
  else if has "copyright" || has "restricted" then "Video is copyright restricted"
  else if has "not found" || has "404" then "Video not found. Please check the URL"
  else if has "format" || has "No suitable" then "No suitable video format available"
  else if has "rate limit" || has "too many" then "Rate limit exceeded. Please try again later"
  else if has "timeout" || has "time out" then "Request timeout. Please try again"
  else JsString.orElse (Some message) "An error occurred while processing your request".

(** The adapter chosen from the validated domain. *)
Definition resolve (env : Env) (domain url type : string) : Eff Result :=
  if JsString.includes "youtube.com" domain || JsString.includes "youtu.be" domain
  then getYouTubeInfo env url type
  else getGenericInfo env url type.

(** The [try] block of the handler of [POST /api/download]. *)
Definition download_try (env : Env) (body : Req.Body) : Eff Response :=
  let type := requestedType body in
  match Req.url body with
  | Some (String c u as url) =>
      if negb (existsb (String.eqb type) ["video"; "audio"])
      then ret (Json 400 (ErrorBody "Invalid download type"))
      else
        match validateVideoUrl env url with
        | Invalid error => ret (Json 400 (ErrorBody error))
        | Valid domain =>
            result <- resolve env domain url type ;;
            if negb (JsString.truthy (download_url result))
            then throw "No download link available"
            else
              ret (Json 200 (ResolvedDownload
                     (JsString.orElse (Some (title result)) "Video Download")
                     (JsString.orElse (Some (format result))
                        (if (type =? "audio")%string then "MP3" else "MP4"))
                     (JsString.orElse (Some (filesize result)) "Unknown")
                     (download_url result)))
        end
  | _ => ret (Json 400 (ErrorBody "Video URL is required"))
  end.

(** The handler of [POST /api/download]. *)
Definition download (env : Env) (body : Req.Body) : Eff Response :=
  try_catch (download_try env body)
    (fun message =>
       console_error "Download endpoint error:" message ;;;
       ret (Json 500 (ErrorBody (errorMessage message)))).

End Server.

(** ** The YouTube-only serverless handler, [src/api/download.js] *)

Module ApiDownload.

(** String-to-number conversion of a content length, taken on unsigned
    runs of decimal digits (the form of a content length; the empty text
    is 0); other text reads as NaN. *)
Definition notDecimalDigit (c : ascii) : bool :=
  match JsNumber.digitValue c with
  | Some d => negb (d <? 10)
  | None => true
  end.

Definition toNumber (s : string) : JsNumber.num :=
  match JsString.filter notDecimalDigit s with
  | EmptyString => Some (JsNumber.orZero (JsNumber.digits 10 s None))
  | String _ _ => None
  end.

(** The size text; the divisions and [Math.round] are taken exactly. *)
Definition filesizeOf (contentLength : option string) : string :=
  match contentLength with
  | Some (String c t as text) =>
      match toNumber text with
      | Some n =>
          if n <? 1024 * 1024
          then JsNumber.showNat ((2 * n + 1024) / 2048) ++ " KB"
          else JsNumber.showHundredths (10 * ((20 * n + 1024 * 1024) / (2 * 1024 * 1024))) ++ " MB"
      | None => "NaN MB"
      end
  | _ => "Unknown"
  end.

(** The message selection of the [catch] block. *)
Definition errorMessage (message : string) : string :=
  let has s := JsString.includes s message in
  if has "private" || has "unavailable" then "Video is private or unavailable"
  else if has "copyright" || has "restricted" then "Video is restricted by copyright"
  else if has "Invalid URL" then "Invalid YouTube URL"
  else if has "No suitable format" then "Could not find a suitable format for this video"
  else "Failed to process the video URL".

(** The [try] block. *)
Definition handler_try (env : Env) (body : Req.Body) : Eff Response :=
  let type := requestedType body in
  match Req.url body with
  | Some (String c u as url) =>
      if negb (existsb (String.eqb type) ["video"; "audio"])
      then ret (Json 400 (ErrorBody "Invalid download type"))
      else if negb (isUri env url)
      then ret (Json 400 (ErrorBody "Invalid URL format"))
      else
        let isYouTube :=
          JsString.includes "youtube.com" url || JsString.includes "youtu.be" url in
        if negb isYouTube
        then ret (Json 400 (ErrorBody
               "Currently, only YouTube videos are supported. Support for other sites coming soon."))
        else
          info <- call (CallGetInfo url) (getInfo env url) ;;
          let videoDetails := Ytdl.videoDetails info in
          match selectFormat type (Ytdl.formats info) with
          | None => throw "No suitable format found for the selected type"
          | Some format =>
              let filesize := filesizeOf (Ytdl.contentLength format) in
              let cleanTitle := sanitizeTitle (Ytdl.title videoDetails) in
              ret (Json 200 (ResolvedDownload
                     cleanTitle
                     (if (type =? "audio")%string then "MP3"
                      else JsString.toUpperCase (Ytdl.container format))
                     filesize
                     (Ytdl.url format)))
          end
  | _ => ret (Json 400 (ErrorBody "Video URL is required"))
  end.

Definition handler (env : Env) (req : Req.Request) : Eff Response :=
  if (Req.method req =? "OPTIONS")%string then ret (Ended 200)
  else if negb (Req.method req =? "POST")%string
  then ret (Json 405 (ErrorBody "Method not allowed"))
  else
    try_catch (handler_try env (Req.body req))
      (fun message =>
         console_error "Error:" message ;;;
         ret (Json 500 (ErrorBody (errorMessage message)))).

End ApiDownload.

(** ** Reference notions the properties are stated with *)

(** [f.bitrate] with a missing bitrate read as 0. *)
Definition bitrateOrZero (f : Format) : Z := JsNumber.orZero (bitrate f).

Definition lowerBitrate (g f : Format) : Prop := bitrateOrZero g < bitrateOrZero f.
Definition notHigherBitrate (g f : Format) : Prop := bitrateOrZero g <= bitrateOrZero f.

(** Quality label first, frames per second second. *)
Definition lowerRank (g f : Format) : Prop :=
  quality g < quality f \/ (quality g = quality f /\ fpsOrZero g < fpsOrZero f).
Definition notHigherRank (g f : Format) : Prop :=
  quality g < quality f \/ (quality g = quality f /\ fpsOrZero g <= fpsOrZero f).

(** [picked] is the first of the greatest elements of [survivors]: nothing
    ranks above it and everything before it ranks strictly below; there is
    no pick exactly when there is no survivor. *)
Definition firstGreatest {A : Type} (lower notHigher : A -> A -> Prop)
    (survivors : list A) (picked : option A) : Prop :=
  match picked with
  | None => survivors = []
  | Some f =>
      exists before after,
        survivors = (before ++ f :: after)%list /\
        (forall g, In g before -> lower g f) /\
        (forall g, In g after -> notHigher g f)
  end.

(** Removal of a leading [www.] only, as a prefix. *)
Definition stripLeadingWww (h : string) : string :=
  if prefix "www." h then JsString.drop 4 h else h.

(** A token none of whose occurrences can share a character with an
    occurrence of [www.]: no suffix of it runs into [www.], and it does
    not begin inside one. *)
Fixpoint clearOfWww (t : string) : bool :=
  match t with
  | EmptyString => true
  | String _ t' => negb (prefix t "www." || prefix "www." t) && clearOfWww t'
  end.

Definition startsOutsideWww (t : string) : bool :=
  match t with
  | EmptyString => false
  | String c _ => negb (Ascii.eqb c "w") && negb (Ascii.eqb c ".")
  end.

(** ** Sample collaborators and requests *)

Module Sample.

Fixpoint afterScheme (s : string) : option string :=
  if prefix "://" s then Some (JsString.drop 3 s)
  else match s with
       | EmptyString => None
       | String _ s' => afterScheme s'
       end.

Fixpoint takeHost (s : string) : string :=
  match s with
  | EmptyString => EmptyString
  | String c s' =>
      if existsb (Ascii.eqb c) ["/"; "?"; "#"; ":"]%char then EmptyString
      else String c (takeHost s')
  end.

(** The host of a lower-case ASCII URL [scheme://host/path] without user
    information, which is what the URL parser reports for it. *)
Definition hostnameOf (url : string) : option string :=
  option_map takeHost (afterScheme url).

Definition hasScheme (url : string) : bool :=
  match afterScheme url with
  | Some _ => true
  | None => false
  end.

(** Collaborators that answer every YouTube lookup with [info], every
    generic lookup with [doc], and every Instagram lookup with [links]. *)
Definition env (info : Outcome Ytdl.Info) (doc : Outcome (option Ydl.Info))
    (links : Outcome (option Instagram.Links)) : Env :=
  {| isUri := hasScheme;
     hostname := hostnameOf;
     getInfo := fun _ => info;
     youtubedl := fun _ _ => doc;
     youtubedlText := fun _ _ => Thrown "ERROR: Unsupported URL";
     getInstagram := fun _ => links |}.

Definition audioStream (rate : option Z) (length : option string) : Format :=
  mkFormat true false rate None None "webm" length (Some "https://cdn.test/audio").

Definition muxedStream (label : string) (rate : Z) : Format :=
  mkFormat true true (Some 500000) (Some label) (Some rate) "mp4" (Some "1048576")
    (Some "https://cdn.test/video").

Definition youtube (title : string) (formats : list Format) : Outcome Ytdl.Info :=
  Returned {| Ytdl.videoDetails := {| Ytdl.title := title |}; Ytdl.formats := formats |}.

Definition offline : Env :=
  env (Thrown "Video unavailable") (Thrown "ERROR: Unsupported URL")
      (Thrown "Request failed").

Definition post (url type : string) : Req.Body :=
  {| Req.url := Some url; Req.type := Some type |}.

Definition watch : string := "https://www.youtube.com/watch?v=X".

(** An audio-only encoding that carries no link. *)
Definition linkless : Format :=
  mkFormat true false (Some 128) None None "webm" None None.

(** Collaborators for which only the Instagram extractor works. *)
Definition instagramOnly : Env :=
  env (Thrown "Video unavailable") (Thrown "ERROR: Unsupported URL")
      (Returned (Some {| Instagram.url := Some ["https://ig.test/1.mp4"; "https://ig.test/2.mp4"] |})).

Definition reel : string := "https://www.instagram.com/reel/1".

(** The nine characters of the title pattern. *)
Definition unsafeTitle : string := "<>:" ++ String dquote "/\|?*".

(** A video whose only encoding is a combined 720p stream. *)
Definition muxedOnly : Env :=
  env (youtube "Clip" [muxedStream "720p" 30]) (Thrown "ERROR: Unsupported URL")
      (Thrown "Request failed").

(** A video whose only encoding is an audio stream of unknown length. *)
Definition unsized : Env :=
  env (youtube "Clip" [audioStream (Some 128) None]) (Thrown "ERROR: Unsupported URL")
      (Thrown "Request failed").

(** A video whose only audio encoding carries no link. *)
Definition unlinked : Env :=
  env (youtube "Clip" [linkless]) (Thrown "ERROR: Unsupported URL")
      (Thrown "Request failed").

(** A video whose title is made of unsafe characters only. *)
Definition untitled : Env :=
  env (youtube unsafeTitle [muxedStream "720p" 30]) (Thrown "ERROR: Unsupported URL")
      (Thrown "Request failed").

Definition postTo (url type : string) : Req.Request :=
  {| Req.method := "POST"; Req.body := post url type |}.

End Sample.

(** ** The handler for any site, [src/unnamed/part_000] *)

Module ApiAny.

(** The generic engine's document as this handler reads it: the fields of
    [Ydl.Info] and the top-level [filesize]. *)
Record Document := {
  info : Ydl.Info;
  filesize : option Z
}.

(** The collaborators of this handler. *)
Record Engines := {
  isUri : string -> bool;
  getInfo : string -> Outcome Ytdl.Info;
  youtubedl : string -> Ydl.Options -> Outcome (option Document)
}.

(** The decimal text of [t / 10], with its sign. *)
Definition showTenths (t : Z) : string :=
  if t <? 0 then "-" ++ JsNumber.showHundredths (10 * - t)
  else JsNumber.showHundredths (10 * t).

(** The text of [Math.round(bytes / (1024 * 1024) * 10) / 10] followed by
    the unit; the division and the rounding are taken exactly. *)
Definition megabytes (bytes : JsNumber.num) : string :=
  match bytes with
  | Some n => showTenths ((20 * n + 1024 * 1024) / (2 * 1024 * 1024)) ++ " MB"
  | None => "NaN MB"
  end.

Definition options (type : string) : Ydl.Options :=
  let audio := (type =? "audio")%string in
  {| Ydl.dumpJson := true;
     Ydl.noCheckCertificates := true;
     Ydl.noWarnings := false;
     Ydl.preferFreeFormats := true;
     Ydl.addHeader := [];
     Ydl.extractAudio := audio;
     Ydl.audioFormat := if audio then Some "mp3" else None;
     Ydl.audioQuality := if audio then Some "0" else None;
     Ydl.format := if audio then None else Some "best[ext=mp4]/best";
     Ydl.getUrl := false |}.

(** The [try] block of the YouTube branch. *)
Definition youtube_try (w : Engines) (url type : string) : Eff Response :=
  info <- call (CallGetInfo url) (getInfo w url) ;;
  let videoDetails := Ytdl.videoDetails info in
  match selectFormat type (Ytdl.formats info) with
  | None => throw "No suitable format found"
  | Some format =>
      ret (Json 200 (ResolvedDownload
             (sanitizeTitle (Ytdl.title videoDetails))
             (if (type =? "audio")%string then "MP3"
              else JsString.toUpperCase (Ytdl.container format))
             (match Ytdl.contentLength format with
              | Some (String c t as text) => megabytes (ApiDownload.toNumber text)
              | _ => "Unknown"
              end)
             (Ytdl.url format)))
  end.

(** The [try] block of the branch for the other sites. *)
Definition generic_try (w : Engines) (url type : string) : Eff Response :=
  let options := options type in
  document <- call (CallYoutubedl url options) (youtubedl w url options) ;;
  match document with
  | None => throw "No video information found"
  | Some document =>
      let format := if (type =? "audio")%string then "MP3" else "MP4" in
      chosen <-
        (if JsString.truthy (Ydl.info_url (info document))
         then ret (Ydl.info_url (info document), format)
         else
           match Ydl.info_formats (info document) with
           | Some (bestFormat :: _) =>
               ret (Ydl.url bestFormat,
                    match Ydl.ext bestFormat with
                    | Some (String c e as ext) => JsString.toUpperCase ext
                    | _ => format
                    end)
           | _ => throw "No download link available"
           end) ;;
      let '(downloadUrl, format) := chosen in
      ret (Json 200 (ResolvedDownload
             (sanitizeTitle (JsString.orElse (Ydl.info_title (info document)) "video"))
             format
             (match filesize document with
              | Some 0 | None => "Unknown"
              | Some n => megabytes (Some n)
              end)
             downloadUrl))
  end.

(** The outer [try] block. *)
Definition handler_try (w : Engines) (body : Req.Body) : Eff Response :=
  let type := requestedType body in
  match Req.url body with
  | Some (String c u as url) =>
      if negb (existsb (String.eqb type) ["video"; "audio"])
      then ret (Json 400 (ErrorBody "Invalid download type"))
      else if negb (isUri w url)
      then ret (Json 400 (ErrorBody "Invalid URL format"))
      else if JsString.includes "youtube.com" url || JsString.includes "youtu.be" url
      then try_catch (youtube_try w url type)
             (fun message => ret (Json 500 (ErrorBody ("YouTube: " ++ message))))
      else try_catch (generic_try w url type)
             (fun message => ret (Json 500 (ErrorBody ("Generic: " ++ message))))
  | _ => ret (Json 400 (ErrorBody "Video URL is required"))
  end.

Definition handler (w : Engines) (req : Req.Request) : Eff Response :=
  if (Req.method req =? "OPTIONS")%string then ret (Ended 200)
  else if negb (Req.method req =? "POST")%string
  then ret (Json 405 (ErrorBody "Method not allowed"))
  else
    try_catch (handler_try w (Req.body req))
      (fun message =>
         console_error "Error:" message ;;;
         ret (Json 500 (ErrorBody ("Failed to process request: " ++ message)))).

End ApiAny.

(** ** Further notions and samples *)

Definition isGetInfoCall (ev : Event) : bool :=
  match ev with
  | CallGetInfo _ => true
  | _ => false
  end.

Definition statusOf (r : Response) : Z :=
  match r with
  | Json status _ => status
  | Ended status => status
  end.

(** [abr || 0] for an audio request, [height || 0] otherwise. *)
Definition genericRank (type : string) (f : Ydl.Format) : Z :=
  if (type =? "audio")%string then JsNumber.orZero (Ydl.abr f)
  else JsNumber.orZero (Ydl.height f).

Fixpoint chars (s : string) : list ascii :=
  match s with
  | EmptyString => []
  | String c s' => c :: chars s'
  end.

Module More.

Definition clip : string := "https://vimeo.com/1".

Definition candidate (abr height : option Z) (link : option string) : Ydl.Format :=
  {| Ydl.abr := abr; Ydl.height := height; Ydl.url := link;
     Ydl.filesize := Some 2048; Ydl.ext := Some "mp4" |}.

Definition listing (direct : option string) (formats : list Ydl.Format) : Ydl.Info :=
  {| Ydl.info_url := direct; Ydl.info_title := Some "Clip";
     Ydl.info_formats := Some formats |}.

(** Collaborators whose generic engine prints [doc] and whose second call
    prints [text]. *)
Definition generic (doc : Outcome (option Ydl.Info)) (text : Outcome (option string)) : Env :=
  {| isUri := Sample.hasScheme;
     hostname := Sample.hostnameOf;
     getInfo := fun _ => Thrown "Video unavailable";
     youtubedl := fun _ _ => doc;
     youtubedlText := fun _ _ => text;
     getInstagram := fun _ => Thrown "Request failed" |}.

(** A Vimeo URL whose query mentions instagram.com. *)
Definition mention : string := "https://vimeo.com/1?ref=instagram.com".

(** An Instagram URL with its host in upper case. *)
Definition shouted : string := "https://www.INSTAGRAM.com/reel/1".

Definition lower (c : ascii) : ascii :=
  let n := nat_of_ascii c in
  if (65 <=? n)%nat && (n <=? 90)%nat then ascii_of_nat (n + 32) else c.

(** The collaborators of [Sample.instagramOnly] with a URL parser that
    reports the host in lower case, as the parser does for an ASCII host. *)
Definition instagramOnlyLower : Env :=
  {| isUri := Sample.hasScheme;
     hostname := fun url => option_map (JsString.map lower) (Sample.hostnameOf url);
     getInfo := getInfo Sample.instagramOnly;
     youtubedl := youtubedl Sample.instagramOnly;
     youtubedlText := youtubedlText Sample.instagramOnly;
     getInstagram := getInstagram Sample.instagramOnly |}.

Definition engines (yt : Outcome Ytdl.Info) (doc : Outcome (option ApiAny.Document))
  : ApiAny.Engines :=
  {| ApiAny.isUri := Sample.hasScheme;
     ApiAny.getInfo := fun _ => yt;
     ApiAny.youtubedl := fun _ _ => doc |}.

End More.

(** ** Facts about the sort *)

Section SortFacts.
Context {A : Type}.
Variable comparefn : A -> A -> JsNumber.num.

Local Abbreviation cmp := (JsArray.SortCompare comparefn).
Local Abbreviation insert := (JsArray.insert comparefn).
Local Abbreviation sort := (JsArray.sort comparefn).

Lemma insert_perm (x : A) (l : list A) : Permutation (insert x l) (x :: l).
Proof.
  induction l as [|y l IH]; simpl.
  - apply Permutation_refl.
  - destruct (cmp x y <=? 0).
    + apply Permutation_refl.
    + eapply perm_trans; [apply perm_skip, IH | apply perm_swap].
Qed.

Lemma sort_perm (l : list A) : Permutation (sort l) l.
Proof.
  induction l as [|x l IH]; simpl.
  - apply perm_nil.
  - eapply perm_trans; [apply insert_perm | apply perm_skip, IH].
Qed.

Lemma sort_In (l : list A) (x : A) : In x (sort l) <-> In x l.
Proof.
  split; apply Permutation_in; [apply sort_perm | apply Permutation_sym, sort_perm].
Qed.

Lemma sort_nil (l : list A) : sort l = [] -> l = [].
Proof.
  intros H. apply Permutation_nil. rewrite <- H. apply sort_perm.
Qed.

(** The comparison function is a consistent ordering. *)
Hypothesis cmp_trans : forall x y z, cmp x y <= 0 -> cmp y z <= 0 -> cmp x z <= 0.
Hypothesis cmp_total : forall x y, 0 < cmp x y -> cmp y x <= 0.

(** Element 0 of the sorted array is the first of the least elements of
    the input (least for the comparison function). *)
Lemma sort_head (l : list A) (f : A) (rest : list A) :
  sort l = f :: rest ->
  exists before after,
    l = (before ++ f :: after)%list /\
    (forall g, In g before -> 0 < cmp g f) /\
    (forall g, In g after -> cmp f g <= 0).
Proof.
  revert f rest. induction l as [|x l IH]; intros f rest H; simpl in H.
  - discriminate.
  - destruct (sort l) as [|f0 r] eqn:E.
    + apply sort_nil in E. subst l. simpl in H. injection H as <- _.
      exists [], []. repeat split; intros g [].
    + destruct (IH f0 r eq_refl) as (b & a & -> & Hb & Ha).
      simpl in H. destruct (cmp x f0 <=? 0) eqn:C.
      * injection H as <- _. apply Z.leb_le in C.
        exists [], (b ++ f0 :: a)%list. split; [reflexivity|]. split; [intros g []|].
        intros g Hg. apply in_app_or in Hg. destruct Hg as [Hg|[<-|Hg]].
        -- apply cmp_trans with f0; [exact C|]. apply cmp_total, Hb, Hg.
        -- exact C.
        -- apply cmp_trans with f0; [exact C|]. apply Ha, Hg.
      * injection H as <- _. apply Z.leb_gt in C.
        exists (x :: b), a. split; [reflexivity|]. split; [|exact Ha].
        intros g [<-|Hg]; [exact C | apply Hb, Hg].
Qed.

(** The sorted array is in order: no element is after a later one. *)
Lemma insert_sorted (x : A) (l : list A) :
  StronglySorted (fun a b => cmp a b <= 0) l ->
  StronglySorted (fun a b => cmp a b <= 0) (insert x l).
Proof.
  induction 1 as [|y l Hl IH Hy]; simpl.
  - constructor; constructor.
  - destruct (cmp x y <=? 0) eqn:C.
    + apply Z.leb_le in C. constructor; [constructor; assumption|].
      constructor; [exact C|].
      rewrite Forall_forall in *. intros z Hz. apply cmp_trans with y; auto.
    + apply Z.leb_gt in C. constructor; [exact IH|].
      rewrite Forall_forall in *. intros z Hz.
      apply (Permutation_in _ (insert_perm x l)) in Hz.
      destruct Hz as [<-|Hz]; [apply cmp_total, C | apply Hy, Hz].
Qed.

Lemma sort_sorted (l : list A) : StronglySorted (fun a b => cmp a b <= 0) (sort l).
Proof.
  induction l as [|x l IH]; simpl; [constructor | apply insert_sorted, IH].
Qed.
End SortFacts.

(** The sort only looks at the comparison function on the elements of the
    array. *)
Lemma insert_ext {A : Type} (c c' : A -> A -> JsNumber.num) (x : A) (l : list A) :
  (forall y, In y l -> c x y = c' x y) ->
  JsArray.insert c x l = JsArray.insert c' x l.
Proof.
  induction l as [|y l IH]; intros H; simpl; [reflexivity|].
  unfold JsArray.SortCompare. rewrite (H y (or_introl eq_refl)).
  rewrite IH; [reflexivity|]. intros z Hz. apply H. right. exact Hz.
Qed.

Lemma sort_ext {A : Type} (c c' : A -> A -> JsNumber.num) (l : list A) :
  (forall x y, In x l -> In y l -> c x y = c' x y) ->
  JsArray.sort c l = JsArray.sort c' l.
Proof.
  induction l as [|x l IH]; intros H; simpl; [reflexivity|].
  rewrite IH by (intros; apply H; right; assumption).
  apply insert_ext. intros y Hy. apply H; [left; reflexivity|].
  right. apply (sort_In c' l y), Hy.
Qed.

(** ** Format selection *)

Lemma bitrate_compare_present (a b : Format) :
  bitrate a <> None -> bitrate b <> None ->
  compareBitrate a b = Some (bitrateOrZero b - bitrateOrZero a).
Proof.
  unfold compareBitrate, bitrateOrZero.
  destruct (bitrate a), (bitrate b); simpl; congruence.
Qed.

Lemma quality_compare_value (a b : Format) :
  JsArray.SortCompare compareQuality a b =
  if quality a =? quality b then fpsOrZero b - fpsOrZero a else quality b - quality a.
Proof.
  unfold JsArray.SortCompare, compareQuality.
  destruct (quality a =? quality b); reflexivity.
Qed.

Lemma hd_error_cons {A : Type} (l : list A) (f : A) :
  hd_error l = Some f -> exists rest, l = f :: rest.
Proof.
  destruct l as [|x rest]; simpl; intros H; [discriminate|].
  injection H as ->. exists rest. reflexivity.
Qed.

(** The audio selection on lists in which each audio-only encoding carries
    a bitrate: it returns the first, in input order, of the audio-only
    encodings with the highest bitrate, and nothing exactly when there is
    none; in particular, of two audio-only encodings with bitrates 128 and
    256 it returns the one with 256. *)
Theorem audio_selection_highest_bitrate :
  (forall formats : list Format,
     (forall f, In f formats -> audioOnly f = true -> bitrate f <> None) ->
     firstGreatest lowerBitrate notHigherBitrate
       (filter audioOnly formats) (selectFormat "audio" formats))
  /\
  (forall q1 r1 c1 n1 u1 q2 r2 c2 n2 u2,
     selectFormat "audio"
       [ mkFormat true false (Some 128) q1 r1 c1 n1 u1;
         mkFormat true false (Some 256) q2 r2 c2 n2 u2 ]
     = Some (mkFormat true false (Some 256) q2 r2 c2 n2 u2)).
Proof.
  split; [|reflexivity].
  intros formats Hrate. unfold selectFormat. simpl.
  set (survivors := filter audioOnly formats).
  assert (Hs : forall f, In f survivors -> bitrate f <> None).
  { intros f Hf. apply filter_In in Hf. destruct Hf. auto. }
  rewrite (sort_ext compareBitrate
             (fun a b => Some (bitrateOrZero b - bitrateOrZero a)) survivors)
    by (intros; apply bitrate_compare_present; auto).
  destruct (hd_error _) as [f|] eqn:E; simpl.
  - apply hd_error_cons in E. destruct E as [rest E].
    apply sort_head in E.
    + destruct E as (before & after & -> & Hb & Ha).
      exists before, after. split; [reflexivity|].
      unfold JsArray.SortCompare in Hb, Ha. simpl in Hb, Ha.
      unfold lowerBitrate, notHigherBitrate.
      split; intros g Hg; [specialize (Hb g Hg) | specialize (Ha g Hg)]; lia.
    + unfold JsArray.SortCompare. simpl. intros. lia.
    + unfold JsArray.SortCompare. simpl. intros. lia.
  - destruct (JsArray.sort _ survivors) eqn:S; [|discriminate].
    apply sort_nil in S. exact S.
Qed.

(** The same at two audio-only encodings with bitrates 128 and 160. *)
Lemma audio_selection_witness :
  (forall f, In f [Sample.audioStream (Some 128) None; Sample.audioStream (Some 160) None] ->
             audioOnly f = true -> bitrate f <> None) /\
  firstGreatest lowerBitrate notHigherBitrate
    (filter audioOnly [Sample.audioStream (Some 128) None; Sample.audioStream (Some 160) None])
    (selectFormat "audio" [Sample.audioStream (Some 128) None; Sample.audioStream (Some 160) None]).
Proof.
  assert (H : forall f, In f [Sample.audioStream (Some 128) None; Sample.audioStream (Some 160) None] ->
                        audioOnly f = true -> bitrate f <> None).
  { intros f [<-|[<-|[]]] _; discriminate. }
  split; [exact H|].
  exact (proj1 audio_selection_highest_bitrate _ H).
Defined.

(** C1 at a list of two audio-only encodings of which the first has no
    bitrate and the second the bitrate 256: the selection returns the first,
    because the comparison is NaN and leaves the two in input order; read
    as 0, as the comparisons of fps, abr and height read a missing value,
    the missing bitrate is not the highest, so the selection is not the
    survivor with the highest bitrate. *)
Lemma audio_missing_bitrate_not_read_as_zero :
  selectFormat "audio" [Sample.audioStream None None; Sample.audioStream (Some 256) None]
    = Some (Sample.audioStream None None)
  /\ bitrateOrZero (Sample.audioStream None None) < bitrateOrZero (Sample.audioStream (Some 256) None)
  /\ ~ firstGreatest lowerBitrate notHigherBitrate
         (filter audioOnly [Sample.audioStream None None; Sample.audioStream (Some 256) None])
         (selectFormat "audio" [Sample.audioStream None None; Sample.audioStream (Some 256) None]).
Proof.
  split; [reflexivity|]. split; [reflexivity|].
  simpl. intros (before & after & E & _ & Ha).
  destruct before as [|x before]; simpl in E.
  - injection E as <-. specialize (Ha _ (or_introl eq_refl)).
    unfold notHigherBitrate, bitrateOrZero, Sample.audioStream in Ha. simpl in Ha. lia.
  - injection E as _ E. destruct before; simpl in E; [discriminate|].
    injection E as _ E. destruct before; discriminate.
Qed.

(** The video selection returns the first, in input order, of the greatest
    encodings that pass the handler's filter. *)
Lemma video_selection_first_greatest :
  (forall formats : list Format,
     firstGreatest lowerRank notHigherRank
       (filter audioAndVideo formats) (selectFormat "video" formats))
  /\
  (forall b1 c1 n1 u1 b2 c2 n2 u2 b3 c3 n3 u3,
     selectFormat "video"
       [ mkFormat true true b1 (Some "720p") (Some 30) c1 n1 u1;
         mkFormat true true b2 (Some "1080p") (Some 24) c2 n2 u2;
         mkFormat true true b3 (Some "1080p") (Some 30) c3 n3 u3 ]
     = Some (mkFormat true true b3 (Some "1080p") (Some 30) c3 n3 u3)).
Proof.
  split; [|reflexivity].
  intros formats. unfold selectFormat. simpl.
  set (survivors := filter audioAndVideo formats).
  destruct (hd_error _) as [f|] eqn:E; simpl.
  - apply hd_error_cons in E. destruct E as [rest E].
    apply sort_head in E.
    + destruct E as (before & after & -> & Hb & Ha).
      exists before, after. split; [reflexivity|].
      unfold lowerRank, notHigherRank.
      split; intros g Hg.
      * specialize (Hb g Hg). rewrite quality_compare_value in Hb. revert Hb.
        destruct (Z.eqb_spec (quality g) (quality f)); lia.
      * specialize (Ha g Hg). rewrite quality_compare_value in Ha. revert Ha.
        destruct (Z.eqb_spec (quality f) (quality g)); lia.
    + intros x y z. rewrite !quality_compare_value.
      destruct (Z.eqb_spec (quality x) (quality y)),
               (Z.eqb_spec (quality y) (quality z)),
               (Z.eqb_spec (quality x) (quality z)); lia.
    + intros x y. rewrite !quality_compare_value.
      destruct (Z.eqb_spec (quality x) (quality y)),
               (Z.eqb_spec (quality y) (quality x)); lia.
  - destruct (JsArray.sort _ survivors) eqn:S; [|discriminate].
    apply sort_nil in S. exact S.
Qed.

(** C2.  For every list of encoding descriptors, the video selection keeps
    exactly the encodings with both audio and video present: what it
    returns is one of them, it returns nothing exactly when the list has
    none, and encodings that lack audio or video are dropped however high
    they rank.  Among the survivors it returns the one that is greatest
    for: parsed numeric quality label first (a label that does not parse
    counts as 0), then frames per second (missing counts as 0); it is the
    first such survivor in input order.  In particular, of the combined
    encodings 720p at 30, 1080p at 24 and 1080p at 30 it returns the 1080p
    one at 30, and with a video-only 2160p and an audio-only encoding added
    in front the answer is the same. *)
Theorem video_selection_highest_rank :
  (forall formats : list Format,
     firstGreatest lowerRank notHigherRank
       (filter (fun f => hasAudio f && hasVideo f) formats)
       (selectFormat "video" formats))
  /\
  (forall (formats : list Format) (f : Format),
     selectFormat "video" formats = Some f ->
     In f formats /\ hasAudio f = true /\ hasVideo f = true)
  /\
  (forall formats : list Format,
     selectFormat "video" formats = None <->
     (forall f, In f formats -> hasAudio f && hasVideo f = false))
  /\
  (forall b1 c1 n1 u1 b2 c2 n2 u2 b3 c3 n3 u3,
     selectFormat "video"
       [ mkFormat true true b1 (Some "720p") (Some 30) c1 n1 u1;
         mkFormat true true b2 (Some "1080p") (Some 24) c2 n2 u2;
         mkFormat true true b3 (Some "1080p") (Some 30) c3 n3 u3 ]
     = Some (mkFormat true true b3 (Some "1080p") (Some 30) c3 n3 u3))
  /\
  (forall b0 c0 n0 u0 b9 c9 n9 u9 b1 c1 n1 u1 b2 c2 n2 u2 b3 c3 n3 u3,
     selectFormat "video"
       [ mkFormat false true b0 (Some "2160p") (Some 60) c0 n0 u0;
         mkFormat true false b9 (Some "4320p") (Some 120) c9 n9 u9;
         mkFormat true true b1 (Some "720p") (Some 30) c1 n1 u1;
         mkFormat true true b2 (Some "1080p") (Some 24) c2 n2 u2;
         mkFormat true true b3 (Some "1080p") (Some 30) c3 n3 u3 ]
     = Some (mkFormat true true b3 (Some "1080p") (Some 30) c3 n3 u3)).
Proof.
  assert (F : forall formats : list Format,
            filter audioAndVideo formats
            = filter (fun f => hasAudio f && hasVideo f) formats).
  { intros formats. apply filter_ext. intros f. apply andb_comm. }
  assert (G : forall formats : list Format,
            firstGreatest lowerRank notHigherRank
              (filter (fun f => hasAudio f && hasVideo f) formats)
              (selectFormat "video" formats)).
  { intros formats. rewrite <- F. apply (proj1 video_selection_first_greatest). }
  split; [exact G|]. split; [|split; [|split; reflexivity]].
  - intros formats f E. specialize (G formats). rewrite E in G.
    destruct G as (before & after & S & _).
    assert (I : In f (filter (fun f => hasAudio f && hasVideo f) formats)).
    { rewrite S. apply in_or_app. right. left. reflexivity. }
    apply filter_In in I. destruct I as [I B].
    apply andb_true_iff in B. tauto.
  - intros formats. specialize (G formats). split.
    + intros E. rewrite E in G. simpl in G. intros f I.
      destruct (hasAudio f && hasVideo f) eqn:B; [|reflexivity].
      assert (X : In f (filter (fun f => hasAudio f && hasVideo f) formats))
        by (apply filter_In; split; assumption).
      rewrite G in X. destruct X.
    + intros N. destruct (selectFormat "video" formats) as [f|]; [|reflexivity].
      destruct G as (before & after & S & _).
      assert (I : In f (filter (fun f => hasAudio f && hasVideo f) formats)).
      { rewrite S. apply in_or_app. right. left. reflexivity. }
      apply filter_In in I. destruct I as [I B]. rewrite (N f I) in B. discriminate B.
Qed.

(** C2 at a list in which the encodings of highest rank lack audio or
    video. *)
Lemma video_selection_witness :
  selectFormat "video"
    [ mkFormat false true None (Some "2160p") (Some 60) "webm" None None;
      Sample.muxedStream "720p" 30 ]
    = Some (Sample.muxedStream "720p" 30)
  /\ In (Sample.muxedStream "720p" 30)
        [ mkFormat false true None (Some "2160p") (Some 60) "webm" None None;
          Sample.muxedStream "720p" 30 ]
  /\ hasAudio (Sample.muxedStream "720p" 30) = true
  /\ hasVideo (Sample.muxedStream "720p" 30) = true.
Proof.
  split; [reflexivity|].
  exact (proj1 (proj2 video_selection_highest_rank)
           [ mkFormat false true None (Some "2160p") (Some 60) "webm" None None;
             Sample.muxedStream "720p" 30 ]
           (Sample.muxedStream "720p" 30) eq_refl).
Defined.

(** ** Facts about strings *)

Lemma includes_eq (t s : string) :
  JsString.includes t s =
  if prefix t s then true
  else match s with
       | EmptyString => false
       | String _ s' => JsString.includes t s'
       end.
Proof. destruct s; reflexivity. Qed.

Lemma replace_eq (pat rep s : string) :
  JsString.replace pat rep s =
  if prefix pat s then rep ++ JsString.drop (String.length pat) s
  else match s with
       | EmptyString => EmptyString
       | String c s' => String c (JsString.replace pat rep s')
       end.
Proof. destruct s; reflexivity. Qed.

Lemma prefix_includes (t s : string) :
  prefix t s = true -> JsString.includes t s = true.
Proof. intros H. rewrite includes_eq, H. reflexivity. Qed.

Lemma includes_cons (t : string) (c : ascii) (s : string) :
  JsString.includes t s = true -> JsString.includes t (String c s) = true.
Proof.
  intros H. rewrite includes_eq. destruct (prefix t (String c s)); [reflexivity|exact H].
Qed.

Lemma includes_drop (t : string) (n : nat) (s : string) :
  JsString.includes t (JsString.drop n s) = true -> JsString.includes t s = true.
Proof.
  revert s. induction n as [|n IH]; intros s H; [exact H|].
  destruct s as [|c s]; [exact H|]. apply includes_cons, IH, H.
Qed.

Lemma includes_empty (t : string) :
  JsString.includes t EmptyString = true -> t = EmptyString.
Proof. destruct t; [reflexivity|discriminate]. Qed.

Lemma replace_absent (pat rep s : string) :
  JsString.includes pat s = false -> JsString.replace pat rep s = s.
Proof.
  induction s as [|c s IH]; intros H; rewrite replace_eq; rewrite includes_eq in H;
    destruct (prefix pat _); try discriminate; [reflexivity|].
  rewrite IH by exact H. reflexivity.
Qed.

Lemma prefix_cons_inv (c : ascii) (t h : string) :
  prefix (String c t) h = true -> exists h', h = String c h' /\ prefix t h' = true.
Proof.
  destruct h as [|a h']; simpl; [discriminate|].
  destruct (ascii_dec c a) as [<-|]; [|discriminate].
  intros H. exists h'. split; [reflexivity|exact H].
Qed.

Lemma prefix_cons_same (c : ascii) (t h : string) :
  prefix (String c t) (String c h) = prefix t h.
Proof. simpl. destruct (ascii_dec c c); [reflexivity|congruence]. Qed.

Lemma prefix_cons_other (c a : ascii) (t h : string) :
  c <> a -> prefix (String c t) (String a h) = false.
Proof. intros N. simpl. destruct (ascii_dec c a); [contradiction|reflexivity]. Qed.

(** Two prefixes of one string: one is a prefix of the other. *)
Lemma prefix_comparable (a b h : string) :
  prefix a h = true -> prefix b h = true -> prefix a b || prefix b a = true.
Proof.
  revert a b. induction h as [|z h IH]; intros a b Ha Hb.
  - destruct a; [|discriminate]. destruct b; reflexivity.
  - destruct a as [|x a]; [destruct b; reflexivity|].
    destruct b as [|y b]; [apply orb_true_r|].
    apply prefix_cons_inv in Ha. destruct Ha as (h1 & E1 & Ha).
    apply prefix_cons_inv in Hb. destruct Hb as (h2 & E2 & Hb).
    injection E1 as -> <-. injection E2 as -> <-.
    rewrite !prefix_cons_same. apply IH; assumption.
Qed.

Lemma prefix_www_inv (h : string) :
  prefix "www." h = true -> exists h4, h = String "w" (String "w" (String "w" (String "." h4))).
Proof.
  intros H.
  apply prefix_cons_inv in H. destruct H as (h1 & -> & H).
  apply prefix_cons_inv in H. destruct H as (h2 & -> & H).
  apply prefix_cons_inv in H. destruct H as (h3 & -> & H).
  apply prefix_cons_inv in H. destruct H as (h4 & -> & H).
  exists h4. reflexivity.
Qed.

(** An occurrence of a token clear of [www.] at the head of the host
    name is still there once the first [www.] is gone. *)
Lemma prefix_survives (t h : string) :
  clearOfWww t = true -> prefix t h = true ->
  prefix t (JsString.replace "www." "" h) = true.
Proof.
  revert h. induction t as [|c t IH]; intros h Hc Hp.
  - destruct (JsString.replace _ _ h); reflexivity.
  - cbn [clearOfWww] in Hc. apply andb_true_iff in Hc. destruct Hc as [Hn Hc].
    apply negb_true_iff in Hn.
    assert (Hw : prefix "www." h = false).
    { destruct (prefix "www." h) eqn:W; [|reflexivity].
      rewrite (prefix_comparable _ _ _ Hp W) in Hn. discriminate. }
    apply prefix_cons_inv in Hp. destruct Hp as (h' & -> & Hp).
    rewrite replace_eq, Hw, prefix_cons_same. apply IH; assumption.
Qed.

Lemma includes_survives (t h : string) :
  clearOfWww t = true -> startsOutsideWww t = true ->
  JsString.includes t h = true ->
  JsString.includes t (JsString.replace "www." "" h) = true.
Proof.
  intros Hc Hs. induction h as [|a h IH]; intros Hi.
  - exact Hi.
  - rewrite includes_eq in Hi. destruct (prefix t (String a h)) eqn:P.
    + apply prefix_includes, prefix_survives; assumption.
    + rewrite replace_eq. destruct (prefix "www." (String a h)) eqn:W.
      * apply prefix_www_inv in W. destruct W as (h4 & W).
        injection W as -> ->. cbn [String.length JsString.drop append].
        destruct t as [|c t]; [discriminate|]. cbn [startsOutsideWww] in Hs.
        apply andb_true_iff in Hs. destruct Hs as [Nw Nd].
        apply negb_true_iff in Nw, Nd. apply Ascii.eqb_neq in Nw, Nd.
        rewrite includes_eq, (prefix_cons_other c "w") in Hi by exact Nw.
        rewrite includes_eq, (prefix_cons_other c "w") in Hi by exact Nw.
        rewrite includes_eq, (prefix_cons_other c ".") in Hi by exact Nd.
        exact Hi.
      * apply includes_cons, IH, Hi.
Qed.

Lemma strip_is_replace (h : string) :
  JsString.includes "www." (stripLeadingWww h) = false ->
  JsString.replace "www." "" h = stripLeadingWww h.
Proof.
  unfold stripLeadingWww. destruct (prefix "www." h) eqn:W.
  - intros _. rewrite replace_eq, W. reflexivity.
  - apply replace_absent.
Qed.

(** ** The URL validator *)

Lemma allowed_tokens_clear (t : string) :
  In t Server.allowedDomains -> clearOfWww t = true /\ startsOutsideWww t = true.
Proof.
  intros H.
  assert (A : forallb (fun t => clearOfWww t && startsOutsideWww t) Server.allowedDomains = true)
    by reflexivity.
  rewrite forallb_forall in A. apply andb_true_iff, A, H.
Qed.

Lemma validate_unparsed (env : Env) (url : string) :
  isUri env url = true -> hostname env url = None ->
  Server.validateVideoUrl env url = Server.Invalid "Invalid URL".
Proof.
  intros U H. unfold Server.validateVideoUrl, Server.getDomain. rewrite U, H. reflexivity.
Qed.

Lemma validate_empty_domain (env : Env) (url h : string) :
  isUri env url = true -> hostname env url = Some h ->
  JsString.replace "www." "" h = EmptyString ->
  Server.validateVideoUrl env url = Server.Invalid "Invalid URL".
Proof.
  intros U H E. unfold Server.validateVideoUrl, Server.getDomain. rewrite U, H, E. reflexivity.
Qed.

Lemma validate_unlisted (env : Env) (url h : string) :
  isUri env url = true -> hostname env url = Some h ->
  JsString.replace "www." "" h <> EmptyString ->
  (forall t, In t Server.allowedDomains ->
             JsString.includes t (JsString.replace "www." "" h) = false) ->
  Server.validateVideoUrl env url =
  Server.Invalid "Website not supported. Please check the URL.".
Proof.
  intros U H N A. unfold Server.validateVideoUrl, Server.getDomain. rewrite U, H.
  cbn [negb]. destruct (JsString.replace "www." "" h) as [|c d] eqn:E; [congruence|].
  destruct (existsb _ Server.allowedDomains) eqn:X; [|reflexivity].
  apply existsb_exists in X. destruct X as (t & Ht & Hi).
  rewrite (A t Ht) in Hi. discriminate.
Qed.

Lemma validate_listed (env : Env) (url h t : string) :
  isUri env url = true -> hostname env url = Some h ->
  In t Server.allowedDomains -> JsString.includes t h = true ->
  Server.validateVideoUrl env url = Server.Valid (JsString.replace "www." "" h).
Proof.
  intros U H Ht Hi. destruct (allowed_tokens_clear t Ht) as [Hc Hs].
  pose proof (includes_survives t h Hc Hs Hi) as Hd.
  unfold Server.validateVideoUrl, Server.getDomain. rewrite U, H. cbn [negb].
  destruct (JsString.replace "www." "" h) as [|c d] eqn:E.
  - apply includes_empty in Hd. subst t. discriminate.
  - assert (X : existsb (fun allowed => JsString.includes allowed (String c d))
                  Server.allowedDomains = true).
    { apply existsb_exists. exists t. split; assumption. }
    rewrite X. reflexivity.
Qed.

(** A failed validation is answered with status 400 and the validator's
    message, before any collaborator is called. *)
Lemma download_invalid (env : Env) (body : Req.Body) (url error : string) :
  Req.url body = Some url -> url <> EmptyString ->
  In (requestedType body) ["video"; "audio"] ->
  Server.validateVideoUrl env url = Server.Invalid error ->
  Server.download env body = ([], Returned (Json 400 (ErrorBody error))).
Proof.
  intros Hu Hn Ht Hv. unfold Server.download, Server.download_try.
  rewrite Hu. destruct url as [|c u]; [congruence|].
  destruct Ht as [<-|[<-|[]]]; simpl; rewrite Hv; reflexivity.
Qed.

(** The serverless handler only serves YouTube: any other URL is answered
    with status 400 and a message of its own. *)
Lemma api_other_site_rejected (env : Env) (body : Req.Body) (url : string) :
  Req.url body = Some url -> url <> EmptyString ->
  In (requestedType body) ["video"; "audio"] ->
  isUri env url = true ->
  JsString.includes "youtube.com" url || JsString.includes "youtu.be" url = false ->
  ApiDownload.handler env {| Req.method := "POST"; Req.body := body |} =
  ([], Returned (Json 400 (ErrorBody
     "Currently, only YouTube videos are supported. Support for other sites coming soon."))).
Proof.
  intros Hu Hn Ht U Hy. unfold ApiDownload.handler, ApiDownload.handler_try.
  cbn [Req.method Req.body String.eqb Ascii.eqb Bool.eqb negb]. rewrite Hu.
  destruct url as [|c u]; [congruence|].
  assert (X : existsb (String.eqb (requestedType body)) ["video"; "audio"] = true).
  { destruct Ht as [<-|[<-|[]]]; reflexivity. }
  rewrite X, U, Hy. reflexivity.
Qed.

(** C4 (as amended).  For every POST request with a video or audio type and
    a well-formed URL whose host name contains none of the allow-listed
    tokens and, once a leading www. is stripped, is not empty and holds no
    further www., the response is HTTP 400 with the message Website not
    supported. Please check the URL.; when the stripped host name is empty
    the response is HTTP 400 with the message Invalid URL; conversely a host
    name containing any allow-listed token (substring containment) passes
    validation. *)
Theorem unsupported_domain_rejected :
  (forall env body url h,
     Req.url body = Some url -> url <> EmptyString ->
     In (requestedType body) ["video"; "audio"] ->
     isUri env url = true -> hostname env url = Some h ->
     JsString.includes "www." (stripLeadingWww h) = false ->
     (forall t, In t Server.allowedDomains -> JsString.includes t h = false) ->
     Server.download env body =
     ([], Returned (Json 400 (ErrorBody
        (if (stripLeadingWww h =? EmptyString)%string then "Invalid URL"
         else "Website not supported. Please check the URL.")))))
  /\
  (forall env url h t,
     isUri env url = true -> hostname env url = Some h ->
     In t Server.allowedDomains -> JsString.includes t h = true ->
     exists domain, Server.validateVideoUrl env url = Server.Valid domain).
Proof.
  split.
  - intros env body url h Hu Hn Ht U H W A.
    pose proof (strip_is_replace h W) as R.
    apply download_invalid with url; try assumption.
    destruct (String.eqb_spec (stripLeadingWww h) EmptyString) as [E|E].
    + apply validate_empty_domain with h; congruence.
    + apply validate_unlisted with h; try assumption; [congruence|].
      intros t Ht'. rewrite R. specialize (A t Ht').
      destruct (JsString.includes t (stripLeadingWww h)) eqn:I; [|reflexivity].
      unfold stripLeadingWww in I. destruct (prefix "www." h).
      * apply includes_drop in I. congruence.
      * congruence.
  - intros env url h t U H Ht Hi. eexists. eapply validate_listed; eassumption.
Qed.

(** C4 at the end-to-end request of an unsupported site. *)
Lemma unsupported_domain_witness :
  Server.download Sample.offline
    {| Req.url := Some "https://example-unsupported.test/v/1"; Req.type := None |}
  = ([], Returned (Json 400 (ErrorBody "Website not supported. Please check the URL."))).
Proof.
  refine (proj1 unsupported_domain_rejected Sample.offline
            {| Req.url := Some "https://example-unsupported.test/v/1"; Req.type := None |}
            "https://example-unsupported.test/v/1" "example-unsupported.test"
            eq_refl _ _ eq_refl eq_refl eq_refl _).
  - discriminate.
  - left. reflexivity.
  - intros t Ht. simpl in Ht.
    repeat (destruct Ht as [<-|Ht]; [reflexivity|]). destruct Ht.
Defined.

(** C4 as stated fails: a well-formed URL without a host has a host name
    that contains no allow-listed token, yet the response is the Invalid URL
    message, by the validator's guard on an empty domain. *)
Lemma hostless_url_is_invalid_url :
  isUri Sample.offline "file:///tmp/clip.mp4" = true
  /\ hostname Sample.offline "file:///tmp/clip.mp4" = Some EmptyString
  /\ existsb (fun t => JsString.includes t EmptyString) Server.allowedDomains = false
  /\ Server.download Sample.offline (Sample.post "file:///tmp/clip.mp4" "video")
     = ([], Returned (Json 400 (ErrorBody "Invalid URL")))
  /\ "Invalid URL" <> "Website not supported. Please check the URL.".
Proof. repeat split; try reflexivity. discriminate. Qed.

(** The domain is the host name with only a leading www. removed whenever
    no www. occurs further inside. *)
Lemma getDomain_strips_leading (env : Env) (url h : string) :
  hostname env url = Some h ->
  JsString.includes "www." (stripLeadingWww h) = false ->
  Server.getDomain env url = Some (stripLeadingWww h).
Proof.
  intros H W. unfold Server.getDomain. rewrite H, (strip_is_replace h W). reflexivity.
Qed.

(** C6 at a host name with www. after another label: the validator accepts
    the URL and returns the domain with that inner www. removed, where
    removal of a leading prefix only leaves the host name as it is.  (A
    URL whose host name does not parse is rejected with Invalid URL:
    [validate_unparsed].) *)
Theorem inner_www_is_removed :
  hostname Sample.offline "https://m.www.youtube.com/watch?v=1" = Some "m.www.youtube.com"
  /\ Server.validateVideoUrl Sample.offline "https://m.www.youtube.com/watch?v=1"
     = Server.Valid "m.youtube.com"
  /\ stripLeadingWww "m.www.youtube.com" = "m.www.youtube.com".
Proof. repeat split. Qed.

(** ** The YouTube adapter and the endpoint *)

(** Whatever fails inside the YouTube adapter, its own [catch] replaces the
    message. *)
Lemma youtube_failure_message (env : Env) (url type message : string) :
  outcome (Server.getYouTubeInfo env url type) = Thrown message ->
  message = "Failed to fetch YouTube video. Make sure the video is public.".
Proof.
  unfold Server.getYouTubeInfo, try_catch, bind, call, outcome.
  destruct (getInfo env url) as [info|e]; simpl.
  - destruct (selectFormat type (Ytdl.formats info)); simpl; congruence.
  - congruence.
Qed.

Lemma youtube_no_match (env : Env) (url type : string) (info : Ytdl.Info) :
  getInfo env url = Returned info ->
  selectFormat type (Ytdl.formats info) = None ->
  Server.getYouTubeInfo env url type =
  ([CallGetInfo url; ConsoleError "YouTube error:" "No suitable format found"],
   Thrown "Failed to fetch YouTube video. Make sure the video is public.").
Proof.
  intros G S. unfold Server.getYouTubeInfo, try_catch, bind, call.
  rewrite G, S. reflexivity.
Qed.

(** On the Express endpoint an empty selection is answered with status 500
    and the adapter's general message. *)
Lemma server_no_match_response (env : Env) (body : Req.Body) (url domain : string)
    (info : Ytdl.Info) :
  Req.url body = Some url -> url <> EmptyString ->
  In (requestedType body) ["video"; "audio"] ->
  Server.validateVideoUrl env url = Server.Valid domain ->
  JsString.includes "youtube.com" domain || JsString.includes "youtu.be" domain = true ->
  getInfo env url = Returned info ->
  selectFormat (requestedType body) (Ytdl.formats info) = None ->
  outcome (Server.download env body) =
  Returned (Json 500 (ErrorBody
    "Failed to fetch YouTube video. Make sure the video is public.")).
Proof.
  intros Hu Hn Ht Hv Hd G S. unfold Server.download, Server.download_try.
  rewrite Hu. destruct url as [|c u]; [congruence|].
  assert (X : existsb (String.eqb (requestedType body)) ["video"; "audio"] = true).
  { destruct Ht as [<-|[<-|[]]]; reflexivity. }
  rewrite X, Hv. cbn [negb]. unfold Server.resolve. rewrite Hd.
  rewrite (youtube_no_match env _ _ info G S). reflexivity.
Qed.

(** On the serverless handler the same situation is answered with the
    message of the format category. *)
Lemma api_no_match_response (env : Env) (body : Req.Body) (url : string)
    (info : Ytdl.Info) :
  Req.url body = Some url -> url <> EmptyString ->
  In (requestedType body) ["video"; "audio"] ->
  isUri env url = true ->
  JsString.includes "youtube.com" url || JsString.includes "youtu.be" url = true ->
  getInfo env url = Returned info ->
  selectFormat (requestedType body) (Ytdl.formats info) = None ->
  outcome (ApiDownload.handler env {| Req.method := "POST"; Req.body := body |}) =
  Returned (Json 500 (ErrorBody "Could not find a suitable format for this video")).
Proof.
  intros Hu Hn Ht U Hd G S. unfold ApiDownload.handler, ApiDownload.handler_try.
  cbn [Req.method Req.body String.eqb Ascii.eqb Bool.eqb negb]. rewrite Hu.
  destruct url as [|c u]; [congruence|].
  assert (X : existsb (String.eqb (requestedType body)) ["video"; "audio"] = true).
  { destruct Ht as [<-|[<-|[]]]; reflexivity. }
  rewrite X, U, Hd. cbn [negb]. unfold bind, call, try_catch. rewrite G, S. reflexivity.
Qed.

(** C3 at an audio request for a video that only has a combined stream:
    the selection is empty and the Express endpoint answers status 500, but
    with the adapter's general message, although the translator has a
    message for this category and the serverless handler delivers its own. *)
Theorem empty_selection_message_is_masked :
  selectFormat "audio" [Sample.muxedStream "720p" 30] = None
  /\ Server.download Sample.muxedOnly (Sample.post Sample.watch "audio")
     = ([ CallGetInfo Sample.watch;
          ConsoleError "YouTube error:" "No suitable format found";
          ConsoleError "Download endpoint error:"
            "Failed to fetch YouTube video. Make sure the video is public." ],
        Returned (Json 500 (ErrorBody
          "Failed to fetch YouTube video. Make sure the video is public.")))
  /\ Server.errorMessage "No suitable format found" = "No suitable video format available"
  /\ outcome (ApiDownload.handler Sample.muxedOnly (Sample.postTo Sample.watch "audio"))
     = Returned (Json 500 (ErrorBody "Could not find a suitable format for this video")).
Proof. repeat split. Qed.

(** Without a content length the YouTube adapter formats the number 0. *)
Lemma youtube_size_without_length (env : Env) (url type : string) (info : Ytdl.Info)
    (format : Format) :
  getInfo env url = Returned info ->
  selectFormat type (Ytdl.formats info) = Some format ->
  JsString.truthy (Ytdl.contentLength format) = false ->
  exists result,
    Server.getYouTubeInfo env url type = ([CallGetInfo url], Returned result) /\
    Server.filesize result = "0 Bytes".
Proof.
  intros G S L. unfold Server.getYouTubeInfo, try_catch, bind, call.
  rewrite G, S. simpl. eexists. split; [reflexivity|]. simpl.
  destruct (Ytdl.contentLength format) as [[|c l]|]; try discriminate; reflexivity.
Qed.

(** With a content length the size is the formatted byte count. *)
Lemma youtube_size_with_length (env : Env) (url type : string) (info : Ytdl.Info)
    (format : Format) (c : ascii) (l : string) :
  getInfo env url = Returned info ->
  selectFormat type (Ytdl.formats info) = Some format ->
  Ytdl.contentLength format = Some (String c l) ->
  exists result,
    Server.getYouTubeInfo env url type = ([CallGetInfo url], Returned result) /\
    Server.filesize result =
    Server.formatFileSize (JsNumber.orZero (JsNumber.parseInt (String c l))).
Proof.
  intros G S L. unfold Server.getYouTubeInfo, try_catch, bind, call.
  rewrite G, S. cbn. eexists. split; [reflexivity|]. cbn. rewrite L. reflexivity.
Qed.

(** C5 at a video whose selected encoding has no content length: the
    Express endpoint reports the size 0 Bytes, where the serverless handler
    reports Unknown. *)
Theorem missing_length_is_zero_bytes :
  selectFormat "audio" [Sample.audioStream (Some 128) None]
    = Some (Sample.audioStream (Some 128) None)
  /\ Ytdl.contentLength (Sample.audioStream (Some 128) None) = None
  /\ outcome (Server.download Sample.unsized (Sample.post Sample.watch "audio"))
     = Returned (Json 200 (ResolvedDownload "Clip" "MP3" "0 Bytes"
                             (Some "https://cdn.test/audio")))
  /\ outcome (ApiDownload.handler Sample.unsized (Sample.postTo Sample.watch "audio"))
     = Returned (Json 200 (ResolvedDownload "Clip" "MP3" "Unknown"
                             (Some "https://cdn.test/audio"))).
Proof. repeat split. Qed.

(** C7.  For every request that passes validation and whose selected
    adapter returns a result without a non-empty download_url, the endpoint
    does not answer with a success: it fails with the message No download
    link available, delivered with HTTP status 500. *)
Theorem missing_link_is_an_error :
  forall env body url domain t result,
    Req.url body = Some url -> url <> EmptyString ->
    In (requestedType body) ["video"; "audio"] ->
    Server.validateVideoUrl env url = Server.Valid domain ->
    Server.resolve env domain url (requestedType body) = (t, Returned result) ->
    JsString.truthy (Server.download_url result) = false ->
    Server.download env body =
    ((t ++ [ConsoleError "Download endpoint error:" "No download link available"])%list,
     Returned (Json 500 (ErrorBody "No download link available"))).
Proof.
  intros env body url domain t result Hu Hn Ht Hv Hr Hl.
  unfold Server.download, Server.download_try.
  rewrite Hu. destruct url as [|c u]; [congruence|].
  assert (X : existsb (String.eqb (requestedType body)) ["video"; "audio"] = true).
  { destruct Ht as [<-|[<-|[]]]; reflexivity. }
  rewrite X, Hv. cbn [negb]. unfold bind at 1. rewrite Hr, Hl.
  cbn. rewrite app_nil_r. reflexivity.
Qed.

(** C7 at a video whose selected encoding carries no link. *)
Lemma missing_link_witness :
  Server.download Sample.unlinked (Sample.post Sample.watch "audio") =
  ([ CallGetInfo Sample.watch;
     ConsoleError "Download endpoint error:" "No download link available" ],
   Returned (Json 500 (ErrorBody "No download link available"))).
Proof.
  refine (missing_link_is_an_error Sample.unlinked (Sample.post Sample.watch "audio")
            Sample.watch "youtube.com" [CallGetInfo Sample.watch]
            {| Server.title := "Clip"; Server.format := "MP3";
               Server.filesize := "0 Bytes"; Server.download_url := None |}
            eq_refl _ _ eq_refl eq_refl eq_refl).
  - discriminate.
  - right. left. reflexivity.
Defined.

(** C9.  For every POST request whose body has no url (absent or empty),
    the response is HTTP 400 with the message Video URL is required, which
    mentions the word required, and the trace is empty: no provider is
    contacted.  This holds for the Express endpoint and for the serverless
    handler. *)
Theorem missing_url_is_required :
  forall env body,
    JsString.truthy (Req.url body) = false ->
    Server.download env body = ([], Returned (Json 400 (ErrorBody "Video URL is required")))
    /\ ApiDownload.handler env {| Req.method := "POST"; Req.body := body |}
       = ([], Returned (Json 400 (ErrorBody "Video URL is required")))
    /\ JsString.includes "required" "Video URL is required" = true.
Proof.
  intros env [[[|c u]|] ty] H; try discriminate; repeat split.
Qed.

(** C9 at a body with only a type. *)
Lemma missing_url_witness :
  Server.download Sample.offline {| Req.url := None; Req.type := Some "audio" |}
    = ([], Returned (Json 400 (ErrorBody "Video URL is required")))
  /\ ApiDownload.handler Sample.offline
       {| Req.method := "POST"; Req.body := {| Req.url := None; Req.type := Some "audio" |} |}
     = ([], Returned (Json 400 (ErrorBody "Video URL is required")))
  /\ JsString.includes "required" "Video URL is required" = true.
Proof.
  exact (missing_url_is_required Sample.offline
           {| Req.url := None; Req.type := Some "audio" |} eq_refl).
Defined.

(** A success response is built from an adapter result that has a link. *)
Lemma success_shape (env : Env) (body : Req.Body) (t : list Event) (payload : Payload) :
  Server.download env body = (t, Returned (Json 200 payload)) ->
  exists result,
    JsString.truthy (Server.download_url result) = true /\
    payload = ResolvedDownload
                (JsString.orElse (Some (Server.title result)) "Video Download")
                (JsString.orElse (Some (Server.format result))
                   (if (requestedType body =? "audio")%string then "MP3" else "MP4"))
                (JsString.orElse (Some (Server.filesize result)) "Unknown")
                (Server.download_url result).
Proof.
  unfold Server.download.
  destruct (Server.download_try env body) as [t0 [r|e]] eqn:E; unfold try_catch.
  - intros H. injection H as -> ->. unfold Server.download_try in E.
    destruct (Req.url body) as [[|c u]|]; try discriminate E.
    destruct (existsb _ _); cbn [negb] in E; try discriminate E.
    destruct (Server.validateVideoUrl env _); try discriminate E.
    unfold bind in E. destruct (Server.resolve _ _ _ _) as [t1 [result|e1]]; [|discriminate E].
    destruct (JsString.truthy (Server.download_url result)) eqn:L;
      cbn in E; [|discriminate E].
    injection E as _ <-. exists result. split; [exact L|reflexivity].
  - cbn. intros H. discriminate H.
Qed.

Lemma orElse_not_empty (v : option string) (d : string) :
  d <> EmptyString -> JsString.orElse v d <> EmptyString.
Proof. intros N. destruct v as [[|c s]|]; simpl; congruence. Qed.

(** An adapter result with a link is answered with status 200, each field
    that is empty replaced by its default. *)
Lemma download_success (env : Env) (body : Req.Body) (url domain : string)
    (t : list Event) (result : Server.Result) :
  Req.url body = Some url -> url <> EmptyString ->
  In (requestedType body) ["video"; "audio"] ->
  Server.validateVideoUrl env url = Server.Valid domain ->
  Server.resolve env domain url (requestedType body) = (t, Returned result) ->
  JsString.truthy (Server.download_url result) = true ->
  Server.download env body =
  (t, Returned (Json 200 (ResolvedDownload
        (JsString.orElse (Some (Server.title result)) "Video Download")
        (JsString.orElse (Some (Server.format result))
           (if (requestedType body =? "audio")%string then "MP3" else "MP4"))
        (JsString.orElse (Some (Server.filesize result)) "Unknown")
        (Server.download_url result)))).
Proof.
  intros Hu Hn Ht Hv Hr Hl. unfold Server.download, Server.download_try.
  rewrite Hu. destruct url as [|c u]; [congruence|].
  assert (X : existsb (String.eqb (requestedType body)) ["video"; "audio"] = true).
  { destruct Ht as [<-|[<-|[]]]; reflexivity. }
  rewrite X, Hv. cbn [negb]. unfold bind at 1. rewrite Hr, Hl.
  cbn. rewrite app_nil_r. reflexivity.
Qed.

(** C10.  Every success (HTTP 200) response of the Express endpoint carries
    a resolved download whose title is not empty: the sanitizer can empty a
    title (it does for the title made of the nine unsafe characters), and
    the endpoint answers with the title Video Download whenever the
    adapter's result has a link and an empty title. *)
Theorem success_title_not_empty :
  (forall env body t payload,
     Server.download env body = (t, Returned (Json 200 payload)) ->
     exists title format filesize link,
       payload = ResolvedDownload title format filesize link /\ title <> EmptyString)
  /\ sanitizeTitle Sample.unsafeTitle = EmptyString
  /\ (forall env body url domain t result,
        Req.url body = Some url -> url <> EmptyString ->
        In (requestedType body) ["video"; "audio"] ->
        Server.validateVideoUrl env url = Server.Valid domain ->
        Server.resolve env domain url (requestedType body) = (t, Returned result) ->
        JsString.truthy (Server.download_url result) = true ->
        Server.title result = EmptyString ->
        exists format filesize,
          Server.download env body
          = (t, Returned (Json 200 (ResolvedDownload "Video Download" format filesize
                                      (Server.download_url result))))).
Proof.
  split; [|split; [reflexivity|]].
  - intros env body t payload H. apply success_shape in H.
    destruct H as (result & _ & ->). do 4 eexists. split; [reflexivity|].
    apply orElse_not_empty. discriminate.
  - intros env body url domain t result Hu Hn Ht Hv Hr Hl E.
    rewrite (download_success env body url domain t result Hu Hn Ht Hv Hr Hl), E.
    do 2 eexists. reflexivity.
Qed.

(** C10 at a video whose title consists of unsafe characters only. *)
Lemma success_title_witness :
  Server.download Sample.untitled (Sample.post Sample.watch "video")
    = ([CallGetInfo Sample.watch],
       Returned (Json 200 (ResolvedDownload "Video Download" "MP4" "1 MB"
                             (Some "https://cdn.test/video"))))
  /\ exists title format filesize link,
       ResolvedDownload "Video Download" "MP4" "1 MB" (Some "https://cdn.test/video")
         = ResolvedDownload title format filesize link /\ title <> EmptyString.
Proof.
  split; [reflexivity|].
  exact (proj1 success_title_not_empty Sample.untitled (Sample.post Sample.watch "video")
           [CallGetInfo Sample.watch] _ eq_refl).
Defined.

(** ** The generic adapter and its Instagram fallback *)

Lemma chooseLink_trace (type : string) (info : Ydl.Info) :
  trace (Server.chooseLink type info) = [].
Proof.
  unfold Server.chooseLink.
  destruct ((type =? "audio")%string && JsString.truthy (Ydl.info_url info)); [reflexivity|].
  destruct (JsString.truthy (Ydl.info_url info)); [reflexivity|].
  destruct (Ydl.info_formats info) as [[|f fs]|]; try reflexivity.
  destruct (JsArray.sort _ _); reflexivity.
Qed.

(** The [try] block never calls the Instagram extractor. *)
Lemma generic_try_no_instagram (env : Env) (url type : string) :
  existsb isInstagramCall (trace (Server.getGenericInfo_try env url type)) = false.
Proof.
  unfold Server.getGenericInfo_try, bind, call.
  destruct (youtubedl env url _) as [[info|]|e]; try reflexivity.
  pose proof (chooseLink_trace type info) as C.
  destruct (Server.chooseLink type info) as [tc [[[link size] kind]|e]];
    unfold trace in C; simpl in C; subst tc; [|reflexivity].
  destruct (JsString.truthy link); cbn [negb].
  - reflexivity.
  - unfold call. destruct (youtubedlText env url _); reflexivity.
Qed.

(** What the adapter does once its [try] block has thrown, on a URL that
    mentions instagram.com. *)
Lemma generic_catch_instagram (env : Env) (url type : string) (t : list Event)
    (message : string) :
  Server.getGenericInfo_try env url type = (t, Thrown message) ->
  JsString.includes "instagram.com" url = true ->
  Server.getGenericInfo env url type =
  match getInstagram env url with
  | Returned (Some {| Instagram.url := Some (first :: _) |}) =>
      ((t ++ [ConsoleError "Generic download error:" message; CallGetInstagram url])%list,
       Returned {| Server.title := "Instagram Video"; Server.format := "MP4";
                   Server.filesize := "Unknown"; Server.download_url := Some first |})
  | Returned _ =>
      ((t ++ [ConsoleError "Generic download error:" message; CallGetInstagram url])%list,
       Thrown ("Failed to download video: " ++ message))
  | Thrown igError =>
      ((t ++ [ConsoleError "Generic download error:" message; CallGetInstagram url;
              ConsoleError "Instagram fallback failed:" igError])%list,
       Thrown ("Failed to download video: " ++ message))
  end.
Proof.
  intros T I. unfold Server.getGenericInfo, Server.instagramFallback.
  rewrite T, I. unfold try_catch, bind, call, console_error, ret, throw.
  destruct (getInstagram env url) as [[[[[|first rest]|]]|]|e]; reflexivity.
Qed.

(** The fallback as the adapter gates it, by the text of the URL.  For
    every URL whose text contains instagram.com on which the generic
    adapter's own attempt fails, the Instagram extractor is called; if it
    yields at least one link the result is the placeholder title Instagram
    Video, format MP4, filesize Unknown and the first link as download_url;
    if it yields no link or fails, the adapter fails with the original
    message behind the prefix Failed to download video, and a failure of
    the extractor is only logged.  The extractor is never called for a URL
    whose text does not contain instagram.com, nor when the generic attempt
    succeeds. *)
Theorem instagram_fallback :
  (forall env url type t message,
     Server.getGenericInfo_try env url type = (t, Thrown message) ->
     JsString.includes "instagram.com" url = true ->
     In (CallGetInstagram url) (trace (Server.getGenericInfo env url type))
     /\ (forall first rest,
           getInstagram env url = Returned (Some {| Instagram.url := Some (first :: rest) |}) ->
           outcome (Server.getGenericInfo env url type)
           = Returned {| Server.title := "Instagram Video"; Server.format := "MP4";
                         Server.filesize := "Unknown"; Server.download_url := Some first |})
     /\ ((forall first rest,
            getInstagram env url <> Returned (Some {| Instagram.url := Some (first :: rest) |})) ->
         outcome (Server.getGenericInfo env url type)
         = Thrown ("Failed to download video: " ++ message))
     /\ (forall igError,
           getInstagram env url = Thrown igError ->
           In (ConsoleError "Instagram fallback failed:" igError)
              (trace (Server.getGenericInfo env url type))))
  /\
  (forall env url type,
     JsString.includes "instagram.com" url = false \/
     (exists t result, Server.getGenericInfo_try env url type = (t, Returned result)) ->
     existsb isInstagramCall (trace (Server.getGenericInfo env url type)) = false).
Proof.
  split.
  - intros env url type t message T I.
    rewrite (generic_catch_instagram env url type t message T I).
    destruct (getInstagram env url) as [[[[[|first rest]|]]|]|e];
      unfold trace, outcome; cbn [fst snd];
      (split; [apply in_or_app; right; simpl; tauto|]);
      (split; [intros f r E; try discriminate E; try (injection E as <- _); reflexivity|]);
      (split; [intros N; try reflexivity; exfalso; eapply N; reflexivity|]);
      intros ig E; try discriminate E.
    injection E as <-. apply in_or_app. right. simpl. tauto.
  - intros env url type H. pose proof (generic_try_no_instagram env url type) as N.
    unfold Server.getGenericInfo.
    destruct (Server.getGenericInfo_try env url type) as [t [r|e]] eqn:T;
      unfold try_catch; [exact N|].
    destruct H as [I|(t' & r & E)]; [|discriminate E].
    unfold Server.instagramFallback. rewrite I. cbn.
    unfold trace in *. cbn [fst] in *. rewrite existsb_app, N. reflexivity.
Qed.

(** The same at a reel for which only the Instagram extractor works. *)
Lemma instagram_fallback_witness :
  Server.getGenericInfo_try Sample.instagramOnly Sample.reel "video"
    = ([CallYoutubedl Sample.reel (Server.dumpOptions "video")], Thrown "ERROR: Unsupported URL")
  /\ In (CallGetInstagram Sample.reel)
        (trace (Server.getGenericInfo Sample.instagramOnly Sample.reel "video"))
  /\ outcome (Server.getGenericInfo Sample.instagramOnly Sample.reel "video")
     = Returned {| Server.title := "Instagram Video"; Server.format := "MP4";
                   Server.filesize := "Unknown";
                   Server.download_url := Some "https://ig.test/1.mp4" |}.
Proof.
  split; [reflexivity|].
  destruct (proj1 instagram_fallback Sample.instagramOnly Sample.reel "video" _ _
              eq_refl eq_refl) as (Called & Found & _).
  split; [exact Called|]. exact (Found _ _ eq_refl).
Defined.

(** C8 at two URLs for which the text of the URL and its host disagree.  A
    Vimeo URL whose query mentions instagram.com is validated with the
    domain vimeo.com, and when the generic engine fails on it the Instagram
    extractor is called and the request is answered with the placeholder
    result Instagram Video.  An Instagram URL whose host is written in
    upper case is validated with the domain instagram.com, and when the
    generic engine fails on it the extractor is not called and the request
    fails. *)
Theorem instagram_test_reads_the_url_text :
  Server.validateVideoUrl Sample.instagramOnly More.mention = Server.Valid "vimeo.com"
  /\ JsString.includes "instagram.com" "vimeo.com" = false
  /\ Server.download Sample.instagramOnly (Sample.post More.mention "video")
     = ([ CallYoutubedl More.mention (Server.dumpOptions "video");
          ConsoleError "Generic download error:" "ERROR: Unsupported URL";
          CallGetInstagram More.mention ],
        Returned (Json 200 (ResolvedDownload "Instagram Video" "MP4" "Unknown"
                              (Some "https://ig.test/1.mp4"))))
  /\ Server.validateVideoUrl More.instagramOnlyLower More.shouted
     = Server.Valid "instagram.com"
  /\ Server.download More.instagramOnlyLower (Sample.post More.shouted "video")
     = ([ CallYoutubedl More.shouted (Server.dumpOptions "video");
          ConsoleError "Generic download error:" "ERROR: Unsupported URL";
          ConsoleError "Download endpoint error:"
            "Failed to download video: ERROR: Unsupported URL" ],
        Returned (Json 500 (ErrorBody "Failed to download video: ERROR: Unsupported URL"))).
Proof. repeat split. Qed.

(** ** Further properties of the Express endpoint *)

Lemma type_check_fails (type : string) :
  ~ In type ["video"; "audio"] -> existsb (String.eqb type) ["video"; "audio"] = false.
Proof.
  intros N. destruct (existsb _ _) eqn:X; [|reflexivity].
  apply existsb_exists in X. destruct X as (t & Ht & E).
  apply String.eqb_eq in E. subst t. contradiction.
Qed.

Lemma type_check_passes (type : string) :
  In type ["video"; "audio"] -> existsb (String.eqb type) ["video"; "audio"] = true.
Proof. intros [<-|[<-|[]]]; reflexivity. Qed.

Lemma validate_invalid_message (env : Env) (url error : string) :
  Server.validateVideoUrl env url = Server.Invalid error ->
  In error ["Invalid URL format"; "Invalid URL";
            "Website not supported. Please check the URL."].
Proof.
  unfold Server.validateVideoUrl. destruct (negb (isUri env url)).
  - intros H. injection H as <-. simpl. tauto.
  - destruct (Server.getDomain env url) as [[|c d]|].
    + intros H. injection H as <-. simpl. tauto.
    + destruct (negb _); intros H; [|discriminate H]. injection H as <-. simpl. tauto.
    + intros H. injection H as <-. simpl. tauto.
Qed.

Lemma errorMessage_not_empty (message : string) :
  Server.errorMessage message <> EmptyString.
Proof.
  unfold Server.errorMessage.
  repeat (match goal with |- context [if ?b then _ else _] => destruct b end;
          [discriminate|]).
  apply orElse_not_empty. discriminate.
Qed.

(** The three ways the endpoint answers. *)
Lemma download_shape (env : Env) (body : Req.Body) :
  (exists error,
     Server.download env body = ([], Returned (Json 400 (ErrorBody error))) /\
     error <> EmptyString)
  \/ (exists t title format filesize link,
        Server.download env body =
        (t, Returned (Json 200 (ResolvedDownload title format filesize link))))
  \/ (exists t message,
        Server.download env body =
        (t, Returned (Json 500 (ErrorBody (Server.errorMessage message))))).
Proof.
  unfold Server.download, Server.download_try.
  destruct (Req.url body) as [[|c u]|];
    try (left; eexists; split; [reflexivity|discriminate]).
  destruct (existsb _ _); cbn [negb];
    [|left; eexists; split; [reflexivity|discriminate]].
  destruct (Server.validateVideoUrl env (String c u)) as [error|domain] eqn:V.
  - left. exists error. split; [reflexivity|].
    apply validate_invalid_message in V. simpl in V.
    destruct V as [<-|[<-|[<-|[]]]]; discriminate.
  - right. unfold bind.
    destruct (Server.resolve env domain (String c u) (requestedType body))
      as [t [result|message]].
    + destruct (JsString.truthy (Server.download_url result)); cbn [negb].
      * left. do 5 eexists. cbn. reflexivity.
      * right. eexists. exists "No download link available". reflexivity.
    + right. eexists. exists message. reflexivity.
Qed.

(** X1.  A request with a url whose type is neither video nor audio is
    answered with HTTP 400 and the message Invalid download type by each of
    the three handlers, before the URL is looked at and with nothing called
    or logged. *)
Theorem invalid_type_rejected :
  forall env w body url,
    Req.url body = Some url -> url <> EmptyString ->
    ~ In (requestedType body) ["video"; "audio"] ->
    Server.download env body = ([], Returned (Json 400 (ErrorBody "Invalid download type")))
    /\ ApiDownload.handler env {| Req.method := "POST"; Req.body := body |}
       = ([], Returned (Json 400 (ErrorBody "Invalid download type")))
    /\ ApiAny.handler w {| Req.method := "POST"; Req.body := body |}
       = ([], Returned (Json 400 (ErrorBody "Invalid download type"))).
Proof.
  intros env w body url Hu Hn Ht. apply type_check_fails in Ht.
  unfold Server.download, Server.download_try, ApiDownload.handler,
    ApiDownload.handler_try, ApiAny.handler, ApiAny.handler_try.
  cbn [Req.method Req.body String.eqb Ascii.eqb Bool.eqb negb].
  rewrite Hu. destruct url as [|c u]; [congruence|]. rewrite Ht.
  repeat split.
Qed.

Lemma invalid_type_witness :
  Server.download Sample.offline (Sample.post Sample.watch "gif")
    = ([], Returned (Json 400 (ErrorBody "Invalid download type")))
  /\ ApiDownload.handler Sample.offline (Sample.postTo Sample.watch "gif")
     = ([], Returned (Json 400 (ErrorBody "Invalid download type")))
  /\ ApiAny.handler (More.engines (Thrown "x") (Thrown "y")) (Sample.postTo Sample.watch "gif")
     = ([], Returned (Json 400 (ErrorBody "Invalid download type"))).
Proof.
  refine (invalid_type_rejected Sample.offline (More.engines (Thrown "x") (Thrown "y"))
            (Sample.post Sample.watch "gif") Sample.watch eq_refl _ _).
  - discriminate.
  - intros [H|[H|[]]]; discriminate H.
Defined.

(** X2.  The Express endpoint answers every request: no exception leaves
    the handler, the answer is a JSON body, and its status is 200, 400 or
    500. *)
Theorem server_always_answers :
  forall env body,
    exists t status payload,
      Server.download env body = (t, Returned (Json status payload))
      /\ In status [200; 400; 500].
Proof.
  intros env body.
  destruct (download_shape env body)
    as [(e & -> & _)|[(t & a & b & c & d & ->)|(t & m & ->)]];
    do 3 eexists; (split; [reflexivity|simpl; tauto]).
Qed.

(** X3.  A response of the Express endpoint with status 400 comes with an
    empty trace: a request that fails validation reaches no extraction
    engine and logs nothing. *)
Theorem server_rejection_has_no_effect :
  forall env body t payload,
    Server.download env body = (t, Returned (Json 400 payload)) -> t = [].
Proof.
  intros env body t payload H.
  destruct (download_shape env body)
    as [(e & E & _)|[(t' & a & b & c & d & E)|(t' & m & E)]];
    rewrite E in H; [|discriminate H|discriminate H].
  injection H as <- _. reflexivity.
Qed.

Lemma server_rejection_witness :
  Server.download Sample.offline (Sample.post "https://example-unsupported.test/v/1" "video")
    = ([], Returned (Json 400 (ErrorBody "Website not supported. Please check the URL.")))
  /\ @nil Event = [].
Proof.
  split; [reflexivity|].
  exact (server_rejection_has_no_effect Sample.offline
           (Sample.post "https://example-unsupported.test/v/1" "video") [] _ eq_refl).
Defined.

(** X4.  Every error body sent by the Express endpoint carries a message
    that is not empty, whatever message the failing collaborator threw. *)
Theorem server_error_message_not_empty :
  forall env body t status error,
    Server.download env body = (t, Returned (Json status (ErrorBody error))) ->
    error <> EmptyString.
Proof.
  intros env body t status error H.
  destruct (download_shape env body)
    as [(e & E & N)|[(t' & a & b & c & d & E)|(t' & m & E)]];
    rewrite E in H; [|discriminate H|].
  - injection H as _ _ <-. exact N.
  - injection H as _ _ <-. apply errorMessage_not_empty.
Qed.

(** X4 at a generic engine that throws an error with an empty message. *)
Lemma server_error_message_witness :
  outcome (Server.download (More.generic (Thrown EmptyString) (Thrown EmptyString))
             (Sample.post More.clip "video"))
    = Returned (Json 500 (ErrorBody "Failed to download video: "))
  /\ "Failed to download video: " <> EmptyString.
Proof.
  split; [reflexivity|].
  exact (server_error_message_not_empty
           (More.generic (Thrown EmptyString) (Thrown EmptyString))
           (Sample.post More.clip "video") _ 500 "Failed to download video: " eq_refl).
Defined.

(** X5.  The validator accepts a URL exactly when it is a well-formed URI,
    its host name parses, and the host name with its first www. removed
    contains an allow-listed token; the domain it returns is that reduced
    host name, which is then not empty. *)
Theorem validator_accepts_exactly :
  forall env url domain,
    Server.validateVideoUrl env url = Server.Valid domain <->
    (isUri env url = true /\
     exists h, hostname env url = Some h /\
               domain = JsString.replace "www." "" h /\
               domain <> EmptyString /\
               existsb (fun allowed => JsString.includes allowed domain)
                 Server.allowedDomains = true).
Proof.
  intros env url domain. unfold Server.validateVideoUrl, Server.getDomain. split.
  - destruct (isUri env url); cbn [negb]; [|discriminate].
    destruct (hostname env url) as [h|]; [|discriminate].
    destruct (JsString.replace "www." "" h) as [|c d] eqn:R; [discriminate|].
    destruct (existsb _ Server.allowedDomains) eqn:X; cbn [negb]; [|discriminate].
    intros H. injection H as <-. split; [reflexivity|].
    exists h. repeat split; [congruence|discriminate|exact X].
  - intros (U & h & H & -> & N & X). rewrite U, H. cbn [negb].
    destruct (JsString.replace "www." "" h) as [|c d]; [congruence|].
    rewrite X. reflexivity.
Qed.

(** ** Routing *)

(** X6.  For a validated domain that contains youtube.com or youtu.be the
    only collaborator called is the YouTube engine, once, with the request's
    URL: neither the generic engine nor the Instagram extractor is
    called. *)
Theorem youtube_route_calls_one_engine :
  forall env domain url type,
    JsString.includes "youtube.com" domain || JsString.includes "youtu.be" domain = true ->
    filter isProviderCall (trace (Server.resolve env domain url type)) = [CallGetInfo url].
Proof.
  intros env domain url type H. unfold Server.resolve. rewrite H.
  unfold Server.getYouTubeInfo, try_catch, bind, call.
  destruct (getInfo env url) as [info|e]; [|reflexivity].
  destruct (selectFormat type (Ytdl.formats info)); reflexivity.
Qed.

Lemma youtube_route_witness :
  filter isProviderCall (trace (Server.resolve Sample.muxedOnly "youtube.com" Sample.watch "audio"))
  = [CallGetInfo Sample.watch].
Proof.
  exact (youtube_route_calls_one_engine Sample.muxedOnly "youtube.com" Sample.watch "audio"
           eq_refl).
Defined.

(** What the generic adapter's trace looks like, whatever the engines
    answer. *)
Lemma generic_trace (env : Env) (url type : string) :
  hd_error (trace (Server.getGenericInfo env url type))
    = Some (CallYoutubedl url (Server.dumpOptions type))
  /\ existsb isGetInfoCall (trace (Server.getGenericInfo env url type)) = false
  /\ (length (filter isProviderCall (trace (Server.getGenericInfo env url type))) <= 3)%nat.
Proof.
  unfold Server.getGenericInfo, Server.getGenericInfo_try, Server.instagramFallback.
  unfold try_catch, bind, call, console_error, ret, throw.
  pose proof (fun info => chooseLink_trace type info) as C.
  destruct (youtubedl env url _) as [[info|]|e].
  - specialize (C info).
    destruct (Server.chooseLink type info) as [tc [[[link size] kind]|e]];
      unfold trace in C; cbn [fst] in C; subst tc.
    + destruct (JsString.truthy link); cbn [negb].
      * cbn. repeat split; lia.
      * destruct (youtubedlText env url _) as [text|e].
        -- cbn. repeat split; lia.
        -- destruct (JsString.includes "instagram.com" url);
             [destruct (getInstagram env url) as [[[[[|f r]|]]|]|e']|];
             cbn; repeat split; lia.
    + destruct (JsString.includes "instagram.com" url);
        [destruct (getInstagram env url) as [[[[[|f r]|]]|]|e']|];
        cbn; repeat split; lia.
  - destruct (JsString.includes "instagram.com" url);
      [destruct (getInstagram env url) as [[[[[|f r]|]]|]|e']|];
      cbn; repeat split; lia.
  - destruct (JsString.includes "instagram.com" url);
      [destruct (getInstagram env url) as [[[[[|f r]|]]|]|e']|];
      cbn; repeat split; lia.
Qed.

(** X7.  For a validated domain that contains neither youtube.com nor
    youtu.be the YouTube engine is never called: the first thing the
    dispatcher does is call the generic engine with the metadata options of
    the requested type, and at most three collaborator calls are made in
    all. *)
Theorem generic_route_never_calls_youtube :
  forall env domain url type,
    JsString.includes "youtube.com" domain || JsString.includes "youtu.be" domain = false ->
    hd_error (trace (Server.resolve env domain url type))
      = Some (CallYoutubedl url (Server.dumpOptions type))
    /\ existsb isGetInfoCall (trace (Server.resolve env domain url type)) = false
    /\ (length (filter isProviderCall (trace (Server.resolve env domain url type))) <= 3)%nat.
Proof.
  intros env domain url type H. unfold Server.resolve. rewrite H. apply generic_trace.
Qed.

Lemma generic_route_witness :
  hd_error (trace (Server.resolve Sample.instagramOnly "instagram.com" Sample.reel "video"))
    = Some (CallYoutubedl Sample.reel (Server.dumpOptions "video"))
  /\ existsb isGetInfoCall
       (trace (Server.resolve Sample.instagramOnly "instagram.com" Sample.reel "video")) = false
  /\ (length (filter isProviderCall
        (trace (Server.resolve Sample.instagramOnly "instagram.com" Sample.reel "video"))) <= 3)%nat.
Proof.
  exact (generic_route_never_calls_youtube Sample.instagramOnly "instagram.com" Sample.reel
           "video" eq_refl).
Defined.

(** ** Failures at the Express endpoint *)

(** X8.  For a YouTube domain the Express endpoint answers with a success,
    or with status 500 and one of two fixed messages: whatever the YouTube
    engine threw (private, unavailable, rate limited, ...), the client reads
    the adapter's general message, so none of the translator's categories
    is ever reported for YouTube. *)
Theorem youtube_failures_read_the_same :
  forall env body url domain,
    Req.url body = Some url -> url <> EmptyString ->
    In (requestedType body) ["video"; "audio"] ->
    Server.validateVideoUrl env url = Server.Valid domain ->
    JsString.includes "youtube.com" domain || JsString.includes "youtu.be" domain = true ->
    exists t r,
      Server.download env body = (t, Returned r) /\
      (statusOf r = 200
       \/ r = Json 500 (ErrorBody
                "Failed to fetch YouTube video. Make sure the video is public.")
       \/ r = Json 500 (ErrorBody "No download link available")).
Proof.
  intros env body url domain Hu Hn Ht Hv Hd.
  unfold Server.download, Server.download_try.
  rewrite Hu. destruct url as [|c u]; [congruence|].
  rewrite (type_check_passes _ Ht), Hv. cbn [negb].
  unfold Server.resolve. rewrite Hd. unfold bind at 1.
  destruct (Server.getYouTubeInfo env (String c u) (requestedType body))
    as [t [result|message]] eqn:G.
  - destruct (JsString.truthy (Server.download_url result)); cbn.
    + do 2 eexists. split; [reflexivity|]. left. reflexivity.
    + do 2 eexists. split; [reflexivity|]. right. right. reflexivity.
  - assert (M : message = "Failed to fetch YouTube video. Make sure the video is public.").
    { apply (youtube_failure_message env (String c u) (requestedType body)).
      rewrite G. reflexivity. }
    subst message. cbn. do 2 eexists. split; [reflexivity|]. right. left. reflexivity.
Qed.

(** X8 at a YouTube engine that reports a private video. *)
Lemma youtube_failures_witness :
  exists t r,
    Server.download (Sample.env (Thrown "This is a private video") (Thrown "x") (Thrown "y"))
      (Sample.post Sample.watch "video") = (t, Returned r) /\
    (statusOf r = 200
     \/ r = Json 500 (ErrorBody
              "Failed to fetch YouTube video. Make sure the video is public.")
     \/ r = Json 500 (ErrorBody "No download link available")).
Proof.
  refine (youtube_failures_read_the_same
            (Sample.env (Thrown "This is a private video") (Thrown "x") (Thrown "y"))
            (Sample.post Sample.watch "video") Sample.watch "youtube.com"
            eq_refl _ _ eq_refl eq_refl).
  - discriminate.
  - left. reflexivity.
Defined.

(** A failure of the generic adapter's own attempt, seen at the endpoint,
    for a URL that does not mention instagram.com. *)
Lemma generic_failure_response (env : Env) (body : Req.Body) (url domain : string)
    (t : list Event) (message : string) :
  Req.url body = Some url -> url <> EmptyString ->
  In (requestedType body) ["video"; "audio"] ->
  Server.validateVideoUrl env url = Server.Valid domain ->
  JsString.includes "youtube.com" domain || JsString.includes "youtu.be" domain = false ->
  JsString.includes "instagram.com" url = false ->
  Server.getGenericInfo_try env url (requestedType body) = (t, Thrown message) ->
  Server.download env body =
  ((t ++ [ ConsoleError "Generic download error:" message;
           ConsoleError "Download endpoint error:" ("Failed to download video: " ++ message) ])%list,
   Returned (Json 500 (ErrorBody
     (Server.errorMessage ("Failed to download video: " ++ message))))).
Proof.
  intros Hu Hn Ht Hv Hd Hi Hg.
  unfold Server.download, Server.download_try.
  rewrite Hu. destruct url as [|c u]; [congruence|].
  rewrite (type_check_passes _ Ht), Hv. cbn [negb].
  unfold Server.resolve. rewrite Hd.
  unfold Server.getGenericInfo, Server.instagramFallback. rewrite Hg, Hi.
  unfold try_catch, bind, console_error, ret, throw. cbn [app].
  rewrite <- !app_assoc. reflexivity.
Qed.

(** X9.  When the generic adapter's attempt fails on a URL that does not
    mention instagram.com, the Express endpoint answers with status 500;
    the message is the translation of the original message behind the
    prefix Failed to download video, and both the adapter and the endpoint
    log the failure. *)
Theorem generic_failure_is_translated :
  forall env body url domain t message,
    Req.url body = Some url -> url <> EmptyString ->
    In (requestedType body) ["video"; "audio"] ->
    Server.validateVideoUrl env url = Server.Valid domain ->
    JsString.includes "youtube.com" domain || JsString.includes "youtu.be" domain = false ->
    JsString.includes "instagram.com" url = false ->
    Server.getGenericInfo_try env url (requestedType body) = (t, Thrown message) ->
    Server.download env body =
    ((t ++ [ ConsoleError "Generic download error:" message;
             ConsoleError "Download endpoint error:" ("Failed to download video: " ++ message) ])%list,
     Returned (Json 500 (ErrorBody
       (Server.errorMessage ("Failed to download video: " ++ message))))).
Proof. intros. eapply generic_failure_response; eassumption. Qed.

(** X9 at an engine that reports a time-out. *)
Lemma generic_failure_witness :
  Server.download (More.generic (Thrown "ERROR: Connection timeout") (Thrown "x"))
    (Sample.post More.clip "video") =
  ([ CallYoutubedl More.clip (Server.dumpOptions "video");
     ConsoleError "Generic download error:" "ERROR: Connection timeout";
     ConsoleError "Download endpoint error:"
       "Failed to download video: ERROR: Connection timeout" ],
   Returned (Json 500 (ErrorBody "Request timeout. Please try again"))).
Proof.
  refine (generic_failure_is_translated
            (More.generic (Thrown "ERROR: Connection timeout") (Thrown "x"))
            (Sample.post More.clip "video") More.clip "vimeo.com"
            [CallYoutubedl More.clip (Server.dumpOptions "video")]
            "ERROR: Connection timeout" eq_refl _ _ eq_refl eq_refl eq_refl eq_refl).
  - discriminate.
  - left. reflexivity.
Defined.

(** X10.  When the generic engine delivers no document for a URL that does
    not mention instagram.com, the Express endpoint answers with status 500
    and the message of the format category, No suitable video format
    available: the adapter's message No video information found contains
    the word format. *)
Theorem no_document_reads_as_no_format :
  forall env body url domain,
    Req.url body = Some url -> url <> EmptyString ->
    In (requestedType body) ["video"; "audio"] ->
    Server.validateVideoUrl env url = Server.Valid domain ->
    JsString.includes "youtube.com" domain || JsString.includes "youtu.be" domain = false ->
    JsString.includes "instagram.com" url = false ->
    youtubedl env url (Server.dumpOptions (requestedType body)) = Returned None ->
    outcome (Server.download env body)
    = Returned (Json 500 (ErrorBody "No suitable video format available")).
Proof.
  intros env body url domain Hu Hn Ht Hv Hd Hi Hy.
  rewrite (generic_failure_response env body url domain
             [CallYoutubedl url (Server.dumpOptions (requestedType body))]
             "No video information found" Hu Hn Ht Hv Hd Hi).
  - reflexivity.
  - unfold Server.getGenericInfo_try, bind, call. rewrite Hy. reflexivity.
Qed.

Lemma no_document_witness :
  outcome (Server.download (More.generic (Returned None) (Thrown "x"))
             (Sample.post More.clip "video"))
  = Returned (Json 500 (ErrorBody "No suitable video format available")).
Proof.
  refine (no_document_reads_as_no_format (More.generic (Returned None) (Thrown "x"))
            (Sample.post More.clip "video") More.clip "vimeo.com"
            eq_refl _ _ eq_refl eq_refl eq_refl eq_refl).
  - discriminate.
  - left. reflexivity.
Defined.

(** ** The generic adapter's choice of a link *)

Lemma generic_compare_value (type : string) (a b : Ydl.Format) :
  JsArray.SortCompare (Server.compareGeneric type) a b
  = genericRank type b - genericRank type a.
Proof.
  unfold JsArray.SortCompare, Server.compareGeneric, genericRank.
  destruct (type =? "audio")%string; reflexivity.
Qed.

(** X11.  When the engine's document has no direct URL but a non-empty list
    of candidates, the generic adapter takes the first candidate, in the
    order of the list, among those with the greatest audio bitrate (for
    audio) or height (otherwise), a missing value counting as 0; the link is
    that candidate's url, the size is formatted from its filesize (0 when
    missing), and the format is its extension in upper case, or MP3/MP4
    when it has none. *)
Theorem generic_choice_is_first_greatest :
  forall type info f fs,
    JsString.truthy (Ydl.info_url info) = false ->
    Ydl.info_formats info = Some (f :: fs) ->
    exists best before after,
      f :: fs = (before ++ best :: after)%list
      /\ (forall g, In g before -> genericRank type g < genericRank type best)
      /\ (forall g, In g after -> genericRank type g <= genericRank type best)
      /\ Server.chooseLink type info =
         ([], Returned
                (Ydl.url best,
                 Server.formatFileSize (JsNumber.orZero (Ydl.filesize best)),
                 match Ydl.ext best with
                 | Some (String c e) => JsString.toUpperCase (String c e)
                 | _ => if (type =? "audio")%string then "MP3" else "MP4"
                 end)).
Proof.
  intros type info f fs U F. unfold Server.chooseLink. rewrite U, F, andb_false_r.
  destruct (JsArray.sort (Server.compareGeneric type) (f :: fs)) as [|best rest] eqn:S.
  - apply sort_nil in S. discriminate S.
  - apply sort_head in S.
    + destruct S as (before & after & E & Hb & Ha).
      exists best, before, after. split; [exact E|].
      split; [|split; [|destruct (Ydl.ext best) as [[|c e]|]; reflexivity]];
        intros g Hg;
        [specialize (Hb g Hg); rewrite generic_compare_value in Hb
        |specialize (Ha g Hg); rewrite generic_compare_value in Ha]; lia.
    + intros x y z. rewrite !generic_compare_value. lia.
    + intros x y. rewrite !generic_compare_value. lia.
Qed.

(** X11 at three candidates of heights 480, 1080 and 1080. *)
Lemma generic_choice_witness :
  exists best before after,
    [ More.candidate None (Some 480) (Some "https://cdn.test/480");
      More.candidate None (Some 1080) (Some "https://cdn.test/1080a");
      More.candidate None (Some 1080) (Some "https://cdn.test/1080b") ]
    = (before ++ best :: after)%list
    /\ (forall g, In g before -> genericRank "video" g < genericRank "video" best)
    /\ (forall g, In g after -> genericRank "video" g <= genericRank "video" best)
    /\ Server.chooseLink "video"
         (More.listing None
            [ More.candidate None (Some 480) (Some "https://cdn.test/480");
              More.candidate None (Some 1080) (Some "https://cdn.test/1080a");
              More.candidate None (Some 1080) (Some "https://cdn.test/1080b") ]) =
       ([], Returned
              (Ydl.url best,
               Server.formatFileSize (JsNumber.orZero (Ydl.filesize best)),
               match Ydl.ext best with
               | Some (String c e) => JsString.toUpperCase (String c e)
               | _ => if ("video" =? "audio")%string then "MP3" else "MP4"
               end)).
Proof.
  exact (generic_choice_is_first_greatest "video"
           (More.listing None
              [ More.candidate None (Some 480) (Some "https://cdn.test/480");
                More.candidate None (Some 1080) (Some "https://cdn.test/1080a");
                More.candidate None (Some 1080) (Some "https://cdn.test/1080b") ])
           _ _ eq_refl eq_refl).
Defined.

(** X12.  When the engine's document has a direct URL, the generic adapter
    returns it after that single call, whatever candidates the document
    lists: the size is Unknown, the format MP3 or MP4 by type, and the title
    is the sanitized document title, or video when there is none. *)
Theorem generic_direct_url_wins :
  forall env url type info,
    youtubedl env url (Server.dumpOptions type) = Returned (Some info) ->
    JsString.truthy (Ydl.info_url info) = true ->
    Server.getGenericInfo env url type =
    ([CallYoutubedl url (Server.dumpOptions type)],
     Returned {| Server.title := sanitizeTitle (JsString.orElse (Ydl.info_title info) "video");
                 Server.format := if (type =? "audio")%string then "MP3" else "MP4";
                 Server.filesize := "Unknown";
                 Server.download_url := Ydl.info_url info |}).
Proof.
  intros env url type info Y U.
  unfold Server.getGenericInfo, Server.getGenericInfo_try, Server.chooseLink,
    try_catch, bind, call.
  rewrite Y, U. destruct (type =? "audio")%string; cbn; rewrite U; reflexivity.
Qed.

Lemma generic_direct_url_witness :
  Server.getGenericInfo
    (More.generic
       (Returned (Some (More.listing (Some "https://cdn.test/direct")
                          [More.candidate None (Some 1080) (Some "https://cdn.test/1080a")])))
       (Thrown "x"))
    More.clip "video" =
  ([CallYoutubedl More.clip (Server.dumpOptions "video")],
   Returned {| Server.title := "Clip"; Server.format := "MP4";
               Server.filesize := "Unknown";
               Server.download_url := Some "https://cdn.test/direct" |}).
Proof.
  exact (generic_direct_url_wins
           (More.generic
              (Returned (Some (More.listing (Some "https://cdn.test/direct")
                                 [More.candidate None (Some 1080) (Some "https://cdn.test/1080a")])))
              (Thrown "x"))
           More.clip "video" _ eq_refl eq_refl).
Defined.

(** X13.  When the chosen candidate carries no link, the generic adapter
    calls the engine a second time, with only the getUrl flag and the format
    bestaudio or best, and returns what that call prints as download_url,
    keeping the size and format of the candidate. *)
Theorem generic_second_call_supplies_link :
  forall env url type info link size kind text,
    youtubedl env url (Server.dumpOptions type) = Returned (Some info) ->
    Server.chooseLink type info = ([], Returned (link, size, kind)) ->
    JsString.truthy link = false ->
    youtubedlText env url (Server.getUrlOptions type) = Returned text ->
    Server.getGenericInfo env url type =
    ([ CallYoutubedl url (Server.dumpOptions type);
       CallYoutubedl url (Server.getUrlOptions type) ],
     Returned {| Server.title := sanitizeTitle (JsString.orElse (Ydl.info_title info) "video");
                 Server.format := kind;
                 Server.filesize := size;
                 Server.download_url := text |}).
Proof.
  intros env url type info link size kind text Y C L T.
  unfold Server.getGenericInfo, Server.getGenericInfo_try, try_catch, bind, call.
  rewrite Y, C, L. cbn [negb]. rewrite T. reflexivity.
Qed.

Lemma generic_second_call_witness :
  Server.getGenericInfo
    (More.generic
       (Returned (Some (More.listing None [More.candidate (Some 128) None None])))
       (Returned (Some "https://cdn.test/late")))
    More.clip "audio" =
  ([ CallYoutubedl More.clip (Server.dumpOptions "audio");
     CallYoutubedl More.clip (Server.getUrlOptions "audio") ],
   Returned {| Server.title := "Clip"; Server.format := "MP4";
               Server.filesize := "2 KB";
               Server.download_url := Some "https://cdn.test/late" |}).
Proof.
  exact (generic_second_call_supplies_link
           (More.generic
              (Returned (Some (More.listing None [More.candidate (Some 128) None None])))
              (Returned (Some "https://cdn.test/late")))
           More.clip "audio" _ None "2 KB" "MP4" _ eq_refl eq_refl eq_refl eq_refl).
Defined.

(** ** The title sanitizer and the size formatter *)

Lemma sanitize_cons (c : ascii) (s : string) :
  sanitizeTitle (String c s) =
  if unsafeChar c then sanitizeTitle s else String c (sanitizeTitle s).
Proof. unfold sanitizeTitle. simpl. destruct (unsafeChar c); reflexivity. Qed.

Lemma sanitize_clean (title : string) :
  existsb unsafeChar (chars (sanitizeTitle title)) = false.
Proof.
  induction title as [|c s IH]; [reflexivity|].
  rewrite sanitize_cons. destruct (unsafeChar c) eqn:U; [exact IH|].
  simpl. rewrite U. exact IH.
Qed.

(** X14.  A sanitized title contains none of the nine unsafe characters;
    sanitizing twice changes nothing more; and a title is left as it is
    exactly when it contains no unsafe character. *)
Theorem sanitizer_removes_exactly_unsafe :
  forall title,
    existsb unsafeChar (chars (sanitizeTitle title)) = false
    /\ sanitizeTitle (sanitizeTitle title) = sanitizeTitle title
    /\ (sanitizeTitle title = title <-> existsb unsafeChar (chars title) = false).
Proof.
  assert (Keep : forall s, existsb unsafeChar (chars s) = false -> sanitizeTitle s = s).
  { induction s as [|c s IH]; [reflexivity|]. simpl. intros H.
    apply orb_false_iff in H. destruct H as [U H].
    rewrite sanitize_cons, U, (IH H). reflexivity. }
  intros title. split; [apply sanitize_clean|]. split.
  - apply Keep, sanitize_clean.
  - split; [|apply Keep]. intros E. rewrite <- E. apply sanitize_clean.
Qed.

Lemma show_whole (n : Z) : JsNumber.showHundredths (100 * n) = JsNumber.showNat n.
Proof.
  unfold JsNumber.showHundredths.
  replace ((100 * n) mod 100) with 0 by (rewrite Z.mul_comm, Z.mod_mul; lia).
  replace (100 * n / 100) with n by (rewrite Z.mul_comm, Z.div_mul; lia).
  reflexivity.
Qed.

(** X15.  A size from 1 to 1023 bytes is printed as the number itself
    followed by the unit Bytes. *)
Theorem small_sizes_print_in_bytes :
  forall bytes,
    0 < bytes < 1024 ->
    Server.formatFileSize bytes = JsNumber.showNat bytes ++ " Bytes".
Proof.
  intros bytes H. unfold Server.formatFileSize.
  destruct (Z.eqb_spec bytes 0); [lia|]. destruct (Z.ltb_spec bytes 0); [lia|].
  assert (L : Z.log2 bytes / 10 = 0).
  { apply Z.div_small. split; [apply Z.log2_nonneg|].
    apply Z.log2_lt_pow2; [lia|]. change (2 ^ 10) with 1024. lia. }
  rewrite L. change (1024 ^ 0) with 1.
  replace ((200 * bytes + 1) / (2 * 1)) with (100 * bytes)
    by (apply Z.div_unique with 1; lia).
  rewrite show_whole. reflexivity.
Qed.

Lemma small_sizes_witness :
  Server.formatFileSize 512 = "512 Bytes".
Proof.
  exact (small_sizes_print_in_bytes 512 (conj eq_refl eq_refl)).
Defined.

(** X16.  The table of units ends at GB: from 2 to the power 41 bytes on
    (2 TiB), the unit printed is the text undefined. *)
Theorem huge_sizes_have_no_unit :
  forall bytes,
    2 ^ 41 <= bytes ->
    exists number, Server.formatFileSize bytes = number ++ " undefined".
Proof.
  intros bytes H. unfold Server.formatFileSize.
  assert (P : 0 < 2 ^ 41) by reflexivity.
  destruct (Z.eqb_spec bytes 0); [lia|]. destruct (Z.ltb_spec bytes 0); [lia|].
  assert (L : 4 <= Z.log2 bytes / 10).
  { apply Z.div_le_lower_bound; [lia|].
    pose proof (Z.log2_le_mono (2 ^ 41) bytes H) as M.
    rewrite Z.log2_pow2 in M by lia. lia. }
  rewrite (nth_overflow Server.sizes "undefined") by (simpl; lia).
  eexists. reflexivity.
Qed.

Lemma huge_sizes_witness :
  exists number, Server.formatFileSize (5 * 1024 ^ 4) = number ++ " undefined".
Proof.
  refine (huge_sizes_have_no_unit (5 * 1024 ^ 4) _). discriminate.
Defined.

(** ** The serverless YouTube handler *)

Lemma api_errorMessage_fixed (message : string) :
  In (ApiDownload.errorMessage message)
     [ "Video is private or unavailable"; "Video is restricted by copyright";
       "Invalid YouTube URL"; "Could not find a suitable format for this video";
       "Failed to process the video URL" ].
Proof.
  unfold ApiDownload.errorMessage.
  repeat (match goal with |- context [if ?b then _ else _] => destruct b end;
          [simpl; tauto|]).
  simpl. tauto.
Qed.

(** The ways the serverless handler answers. *)
Lemma api_shape (env : Env) (req : Req.Request) :
  (exists r,
     ApiDownload.handler env req = ([], Returned r) /\
     (r = Ended 200 \/ exists error, r = Json 405 (ErrorBody error) \/ r = Json 400 (ErrorBody error)))
  \/ (Req.method req = "POST" /\
      ((exists t title format filesize link,
          ApiDownload.handler env req =
          (t, Returned (Json 200 (ResolvedDownload title format filesize link))))
       \/ (exists t message,
             ApiDownload.handler env req =
             (t, Returned (Json 500 (ErrorBody (ApiDownload.errorMessage message))))))).
Proof.
  unfold ApiDownload.handler.
  destruct (Req.method req =? "OPTIONS")%string; [left; eexists; split; [reflexivity|tauto]|].
  destruct (String.eqb_spec (Req.method req) "POST") as [P|P]; cbn [negb];
    [|left; eexists; split; [reflexivity|right; eexists; left; reflexivity]].
  unfold ApiDownload.handler_try.
  destruct (Req.url (Req.body req)) as [[|c u]|];
    try (left; eexists; split; [reflexivity|right; eexists; right; reflexivity]).
  destruct (existsb _ _); cbn [negb];
    [|left; eexists; split; [reflexivity|right; eexists; right; reflexivity]].
  destruct (isUri env (String c u)); cbn [negb];
    [|left; eexists; split; [reflexivity|right; eexists; right; reflexivity]].
  destruct (JsString.includes "youtube.com" (String c u) || JsString.includes "youtu.be" (String c u));
    cbn [negb];
    [|left; eexists; split; [reflexivity|right; eexists; right; reflexivity]].
  right. split; [exact P|]. unfold bind, call, try_catch.
  destruct (getInfo env (String c u)) as [info|message].
  - destruct (selectFormat _ _) as [format|].
    + left. do 5 eexists. reflexivity.
    + right. eexists. exists "No suitable format found for the selected type". reflexivity.
  - right. eexists. exists message. reflexivity.
Qed.

(** X17.  The serverless handler answers every request that carries a body
    object: no exception leaves it and the status is 200, 400, 405 or 500.  An answer with status 400 or
    405, and every answer to a request that is not a POST, comes with an
    empty trace: the YouTube engine is not called and nothing is logged. *)
Theorem api_always_answers :
  forall env req,
    exists t r,
      ApiDownload.handler env req = (t, Returned r)
      /\ In (statusOf r) [200; 400; 405; 500]
      /\ (In (statusOf r) [400; 405] -> t = [])
      /\ (Req.method req <> "POST" -> t = []).
Proof.
  intros env req.
  destruct (api_shape env req)
    as [(r & -> & [->|(e & [->| ->])])
       |(P & [(t & a & b & c & d & ->)|(t & m & ->)])];
    do 2 eexists; (split; [reflexivity|]); simpl;
    repeat split; try tauto; try congruence;
    intros [H|[H|[]]]; discriminate H.
Qed.

(** X18.  A status 500 answer of the serverless handler carries one of five
    fixed messages: the text thrown by the YouTube engine is logged but
    never sent to the client. *)
Theorem api_failure_message_is_fixed :
  forall env req t error,
    ApiDownload.handler env req = (t, Returned (Json 500 (ErrorBody error))) ->
    In error
       [ "Video is private or unavailable"; "Video is restricted by copyright";
         "Invalid YouTube URL"; "Could not find a suitable format for this video";
         "Failed to process the video URL" ].
Proof.
  intros env req t error H.
  destruct (api_shape env req)
    as [(r & E & [->|(e & [->| ->])])
       |(P & [(t' & a & b & c & d & E)|(t' & m & E)])];
    rewrite E in H; try discriminate H.
  injection H as _ <-. apply api_errorMessage_fixed.
Qed.

(** X18 at an engine that fails with a text of no known category. *)
Lemma api_failure_message_witness :
  ApiDownload.handler (Sample.env (Thrown "Status code: 429") (Thrown "x") (Thrown "y"))
    (Sample.postTo Sample.watch "video")
    = ([CallGetInfo Sample.watch; ConsoleError "Error:" "Status code: 429"],
       Returned (Json 500 (ErrorBody "Failed to process the video URL")))
  /\ In "Failed to process the video URL"
       [ "Video is private or unavailable"; "Video is restricted by copyright";
         "Invalid YouTube URL"; "Could not find a suitable format for this video";
         "Failed to process the video URL" ].
Proof.
  split; [reflexivity|].
  exact (api_failure_message_is_fixed
           (Sample.env (Thrown "Status code: 429") (Thrown "x") (Thrown "y"))
           (Sample.postTo Sample.watch "video") _ _ eq_refl).
Defined.

(** X19.  The serverless handler takes a URL for a YouTube URL when the
    text youtube.com or youtu.be occurs anywhere in it, and when the list
    has an encoding of the requested kind it answers with status 200 and
    one such encoding of the list without further checks: the title is the
    sanitized title even when that is empty, download_url is that
    encoding's url even when it has none, the format is MP3 for audio and
    the container in upper case otherwise, and the size is Unknown when the
    encoding has no content length. *)
Theorem api_success_is_unchecked :
  forall env body url info,
    Req.url body = Some url -> url <> EmptyString ->
    In (requestedType body) ["video"; "audio"] ->
    isUri env url = true ->
    JsString.includes "youtube.com" url || JsString.includes "youtu.be" url = true ->
    getInfo env url = Returned info ->
    (exists f, In f (Ytdl.formats info) /\
               (if (requestedType body =? "audio")%string
                then hasAudio f && negb (hasVideo f)
                else hasVideo f && hasAudio f) = true) ->
    exists format filesize,
      In format (Ytdl.formats info)
      /\ (if (requestedType body =? "audio")%string
          then hasAudio format && negb (hasVideo format)
          else hasVideo format && hasAudio format) = true
      /\ (JsString.truthy (Ytdl.contentLength format) = false -> filesize = "Unknown")
      /\ ApiDownload.handler env {| Req.method := "POST"; Req.body := body |} =
         ([CallGetInfo url],
          Returned (Json 200 (ResolvedDownload
            (sanitizeTitle (Ytdl.title (Ytdl.videoDetails info)))
            (if (requestedType body =? "audio")%string then "MP3"
             else JsString.toUpperCase (Ytdl.container format))
            filesize
            (Ytdl.url format)))).
Proof.
  intros env body url info Hu Hn Ht U Hy G (f & If & Wf).
  assert (S : exists format,
            selectFormat (requestedType body) (Ytdl.formats info) = Some format
            /\ In format (Ytdl.formats info)
            /\ (if (requestedType body =? "audio")%string
                then hasAudio format && negb (hasVideo format)
                else hasVideo format && hasAudio format) = true).
  { unfold selectFormat. destruct (requestedType body =? "audio")%string.
    - destruct (JsArray.sort compareBitrate (filter audioOnly (Ytdl.formats info)))
        as [|format rest] eqn:E.
      + apply sort_nil in E.
        assert (X : In f (filter audioOnly (Ytdl.formats info)))
          by (apply filter_In; split; assumption).
        rewrite E in X. destruct X.
      + exists format. split; [reflexivity|].
        assert (X : In format (JsArray.sort compareBitrate
                                 (filter audioOnly (Ytdl.formats info))))
          by (rewrite E; left; reflexivity).
        apply sort_In, filter_In in X. exact X.
    - destruct (JsArray.sort compareQuality (filter audioAndVideo (Ytdl.formats info)))
        as [|format rest] eqn:E.
      + apply sort_nil in E.
        assert (X : In f (filter audioAndVideo (Ytdl.formats info)))
          by (apply filter_In; split; assumption).
        rewrite E in X. destruct X.
      + exists format. split; [reflexivity|].
        assert (X : In format (JsArray.sort compareQuality
                                 (filter audioAndVideo (Ytdl.formats info))))
          by (rewrite E; left; reflexivity).
        apply sort_In, filter_In in X. exact X. }
  destruct S as (format & S & Iformat & Wformat).
  exists format, (ApiDownload.filesizeOf (Ytdl.contentLength format)).
  split; [exact Iformat|]. split; [exact Wformat|]. split.
  - intros L. destruct (Ytdl.contentLength format) as [[|c l]|];
      try discriminate L; reflexivity.
  - unfold ApiDownload.handler, ApiDownload.handler_try.
    cbn [Req.method Req.body String.eqb Ascii.eqb Bool.eqb negb]. rewrite Hu.
    destruct url as [|c u]; [congruence|].
    rewrite (type_check_passes _ Ht), U, Hy. cbn [negb].
    unfold bind, call, try_catch. rewrite G, S. reflexivity.
Qed.

(** X19 at a page of another site whose query mentions youtube.com, for a
    video with an unsafe title and an encoding without link. *)
Lemma api_success_witness :
  exists format filesize,
    In format [Sample.linkless]
    /\ hasAudio format && negb (hasVideo format) = true
    /\ (JsString.truthy (Ytdl.contentLength format) = false -> filesize = "Unknown")
    /\ ApiDownload.handler
         (Sample.env (Sample.youtube Sample.unsafeTitle [Sample.linkless])
            (Thrown "x") (Thrown "y"))
         (Sample.postTo "https://example.test/?u=youtube.com" "audio") =
       ([CallGetInfo "https://example.test/?u=youtube.com"],
        Returned (Json 200 (ResolvedDownload EmptyString "MP3" filesize (Ytdl.url format)))).
Proof.
  refine (api_success_is_unchecked
            (Sample.env (Sample.youtube Sample.unsafeTitle [Sample.linkless])
               (Thrown "x") (Thrown "y"))
            (Sample.post "https://example.test/?u=youtube.com" "audio")
            "https://example.test/?u=youtube.com" _
            eq_refl _ _ eq_refl eq_refl eq_refl _).
  - discriminate.
  - right. left. reflexivity.
  - exists Sample.linkless. split; [left; reflexivity|reflexivity].
Defined.

(** ** The handler for any site *)

(** The ways the handler for any site answers a POST that passed its
    checks. *)
Lemma any_shape (w : ApiAny.Engines) (req : Req.Request) :
  (exists r,
     ApiAny.handler w req = ([], Returned r) /\
     (r = Ended 200 \/ exists error, r = Json 405 (ErrorBody error) \/ r = Json 400 (ErrorBody error)))
  \/ (exists t title format filesize link,
        ApiAny.handler w req =
        (t, Returned (Json 200 (ResolvedDownload title format filesize link))))
  \/ (exists t message,
        ApiAny.handler w req = (t, Returned (Json 500 (ErrorBody ("YouTube: " ++ message))))
        \/ ApiAny.handler w req = (t, Returned (Json 500 (ErrorBody ("Generic: " ++ message))))).
Proof.
  unfold ApiAny.handler.
  destruct (Req.method req =? "OPTIONS")%string; [left; eexists; split; [reflexivity|tauto]|].
  destruct (Req.method req =? "POST")%string; cbn [negb];
    [|left; eexists; split; [reflexivity|right; eexists; left; reflexivity]].
  unfold ApiAny.handler_try.
  destruct (Req.url (Req.body req)) as [[|c u]|];
    try (left; eexists; split; [reflexivity|right; eexists; right; reflexivity]).
  destruct (existsb _ _); cbn [negb];
    [|left; eexists; split; [reflexivity|right; eexists; right; reflexivity]].
  destruct (ApiAny.isUri w (String c u)); cbn [negb];
    [|left; eexists; split; [reflexivity|right; eexists; right; reflexivity]].
  right.
  destruct (JsString.includes "youtube.com" (String c u) || JsString.includes "youtu.be" (String c u)).
  - unfold ApiAny.youtube_try, bind, call, try_catch.
    destruct (ApiAny.getInfo w (String c u)) as [info|message].
    + destruct (selectFormat _ _) as [format|].
      * left. do 5 eexists. reflexivity.
      * right. eexists. exists "No suitable format found". left. reflexivity.
    + right. eexists. exists message. left. reflexivity.
  - unfold ApiAny.generic_try, bind, call, try_catch.
    destruct (ApiAny.youtubedl w (String c u) _) as [[document|]|message].
    + destruct (JsString.truthy (Ydl.info_url (ApiAny.info document))).
      * left. do 5 eexists. reflexivity.
      * destruct (Ydl.info_formats (ApiAny.info document)) as [[|f fs]|].
        -- right. eexists. exists "No download link available". right. reflexivity.
        -- left. do 5 eexists. reflexivity.
        -- right. eexists. exists "No download link available". right. reflexivity.
    + right. eexists. exists "No video information found". right. reflexivity.
    + right. eexists. exists message. right. reflexivity.
Qed.

(** X20.  The handler for any site answers every request that carries a
    body object: no exception leaves it, the status is 200, 400, 405 or 500,
    and an answer with status 400 or 405, like every answer to a request
    that is not a POST, comes with an empty trace: no engine is called and
    nothing is logged. *)
Theorem any_always_answers :
  forall w req,
    exists t r,
      ApiAny.handler w req = (t, Returned r)
      /\ In (statusOf r) [200; 400; 405; 500]
      /\ (In (statusOf r) [400; 405] -> t = [])
      /\ (Req.method req <> "POST" -> t = []).
Proof.
  intros w req.
  destruct (String.eqb_spec (Req.method req) "POST") as [P|P].
  - destruct (any_shape w req)
      as [(r & -> & [->|(e & [->| ->])])
         |[(t & a & b & c & d & ->)|(t & m & [->| ->])]];
      do 2 eexists; (split; [reflexivity|]); simpl;
      (split; [tauto|]);
      (split; [try tauto; intros [H|[H|[]]]; discriminate H|]);
      intros N; contradiction.
  - unfold ApiAny.handler.
    destruct (Req.method req =? "OPTIONS")%string.
    + do 2 eexists. split; [reflexivity|]. simpl. tauto.
    + apply String.eqb_neq in P. rewrite P. cbn [negb].
      do 2 eexists. split; [reflexivity|]. simpl. tauto.
Qed.

(** X21.  For a URL that mentions youtube.com or youtu.be, the handler for
    any site sends the engine's own message to the client behind the prefix
    YouTube:, and an empty selection as YouTube: No suitable format found;
    nothing is logged. *)
Theorem any_youtube_failure_is_exposed :
  forall w body url,
    Req.url body = Some url -> url <> EmptyString ->
    In (requestedType body) ["video"; "audio"] ->
    ApiAny.isUri w url = true ->
    JsString.includes "youtube.com" url || JsString.includes "youtu.be" url = true ->
    (forall message,
       ApiAny.getInfo w url = Thrown message ->
       ApiAny.handler w {| Req.method := "POST"; Req.body := body |}
       = ([CallGetInfo url], Returned (Json 500 (ErrorBody ("YouTube: " ++ message)))))
    /\ (forall info,
          ApiAny.getInfo w url = Returned info ->
          selectFormat (requestedType body) (Ytdl.formats info) = None ->
          ApiAny.handler w {| Req.method := "POST"; Req.body := body |}
          = ([CallGetInfo url],
             Returned (Json 500 (ErrorBody "YouTube: No suitable format found")))).
Proof.
  intros w body url Hu Hn Ht U Hy.
  unfold ApiAny.handler, ApiAny.handler_try.
  cbn [Req.method Req.body String.eqb Ascii.eqb Bool.eqb negb]. rewrite Hu.
  destruct url as [|c u]; [congruence|].
  rewrite (type_check_passes _ Ht), U, Hy. cbn [negb].
  unfold ApiAny.youtube_try, bind, call, try_catch.
  split.
  - intros message G. rewrite G. reflexivity.
  - intros info G S. rewrite G, S. reflexivity.
Qed.

(** X21 at an engine that reports a private video. *)
Lemma any_youtube_failure_witness :
  ApiAny.handler (More.engines (Thrown "This is a private video") (Thrown "x"))
    (Sample.postTo Sample.watch "video")
  = ([CallGetInfo Sample.watch],
     Returned (Json 500 (ErrorBody "YouTube: This is a private video"))).
Proof.
  refine (proj1 (any_youtube_failure_is_exposed
                   (More.engines (Thrown "This is a private video") (Thrown "x"))
                   (Sample.post Sample.watch "video") Sample.watch
                   eq_refl _ _ eq_refl eq_refl) _ eq_refl).
  - discriminate.
  - left. reflexivity.
Defined.

(** X22.  For any other well-formed URI (there is no allow-list), when the
    engine's document has no direct URL but a non-empty list of candidates,
    the handler for any site takes the first candidate of the list as it
    is, without ranking: its url is the download_url and its extension in
    upper case the format (MP3 or MP4 by type when it has none). *)
Theorem any_takes_first_candidate :
  forall w body url document f fs,
    Req.url body = Some url -> url <> EmptyString ->
    In (requestedType body) ["video"; "audio"] ->
    ApiAny.isUri w url = true ->
    JsString.includes "youtube.com" url || JsString.includes "youtu.be" url = false ->
    ApiAny.youtubedl w url (ApiAny.options (requestedType body)) = Returned (Some document) ->
    JsString.truthy (Ydl.info_url (ApiAny.info document)) = false ->
    Ydl.info_formats (ApiAny.info document) = Some (f :: fs) ->
    exists title filesize,
      ApiAny.handler w {| Req.method := "POST"; Req.body := body |}
      = ([CallYoutubedl url (ApiAny.options (requestedType body))],
         Returned (Json 200 (ResolvedDownload title
           (match Ydl.ext f with
            | Some (String c e) => JsString.toUpperCase (String c e)
            | _ => if (requestedType body =? "audio")%string then "MP3" else "MP4"
            end)
           filesize (Ydl.url f)))).
Proof.
  intros w body url document f fs Hu Hn Ht U Hy Y D F.
  unfold ApiAny.handler, ApiAny.handler_try.
  cbn [Req.method Req.body String.eqb Ascii.eqb Bool.eqb negb]. rewrite Hu.
  destruct url as [|c u]; [congruence|].
  rewrite (type_check_passes _ Ht), U, Hy. cbn [negb].
  unfold ApiAny.generic_try, bind, call, try_catch. rewrite Y, D, F.
  do 2 eexists. destruct (Ydl.ext f) as [[|c' e]|]; reflexivity.
Qed.

(** X22 at a list whose first candidate is the lowest. *)
Lemma any_first_candidate_witness :
  exists title filesize,
    ApiAny.handler
      (More.engines (Thrown "x")
         (Returned (Some {| ApiAny.info :=
                              More.listing None
                                [ More.candidate None (Some 144) (Some "https://cdn.test/144");
                                  More.candidate None (Some 1080) (Some "https://cdn.test/1080") ];
                            ApiAny.filesize := None |})))
      (Sample.postTo More.clip "video")
    = ([CallYoutubedl More.clip (ApiAny.options "video")],
       Returned (Json 200 (ResolvedDownload title "MP4" filesize (Some "https://cdn.test/144")))).
Proof.
  refine (any_takes_first_candidate
            (More.engines (Thrown "x")
               (Returned (Some {| ApiAny.info :=
                                    More.listing None
                                      [ More.candidate None (Some 144) (Some "https://cdn.test/144");
                                        More.candidate None (Some 1080) (Some "https://cdn.test/1080") ];
                                  ApiAny.filesize := None |})))
            (Sample.post More.clip "video") More.clip _ _ _
            eq_refl _ _ eq_refl eq_refl eq_refl eq_refl eq_refl).
  - discriminate.
  - left. reflexivity.
Defined.

(** X23.  For any other well-formed URI, a failure of the generic branch of
    the handler for any site is sent to the client behind the prefix
    Generic:, after the single engine call: the engine's own message when it
    throws, No video information found when it delivers no document, and No
    download link available when the document has neither a direct URL nor
    a candidate. *)
Theorem any_generic_failure_is_exposed :
  forall w body url,
    Req.url body = Some url -> url <> EmptyString ->
    In (requestedType body) ["video"; "audio"] ->
    ApiAny.isUri w url = true ->
    JsString.includes "youtube.com" url || JsString.includes "youtu.be" url = false ->
    (forall message,
       ApiAny.youtubedl w url (ApiAny.options (requestedType body)) = Thrown message ->
       ApiAny.handler w {| Req.method := "POST"; Req.body := body |}
       = ([CallYoutubedl url (ApiAny.options (requestedType body))],
          Returned (Json 500 (ErrorBody ("Generic: " ++ message)))))
    /\ (ApiAny.youtubedl w url (ApiAny.options (requestedType body)) = Returned None ->
        ApiAny.handler w {| Req.method := "POST"; Req.body := body |}
        = ([CallYoutubedl url (ApiAny.options (requestedType body))],
           Returned (Json 500 (ErrorBody "Generic: No video information found"))))
    /\ (forall document,
          ApiAny.youtubedl w url (ApiAny.options (requestedType body))
            = Returned (Some document) ->
          JsString.truthy (Ydl.info_url (ApiAny.info document)) = false ->
          Ydl.info_formats (ApiAny.info document) = None
            \/ Ydl.info_formats (ApiAny.info document) = Some [] ->
          ApiAny.handler w {| Req.method := "POST"; Req.body := body |}
          = ([CallYoutubedl url (ApiAny.options (requestedType body))],
             Returned (Json 500 (ErrorBody "Generic: No download link available")))).
Proof.
  intros w body url Hu Hn Ht U Hy.
  unfold ApiAny.handler, ApiAny.handler_try.
  cbn [Req.method Req.body String.eqb Ascii.eqb Bool.eqb negb]. rewrite Hu.
  destruct url as [|c u]; [congruence|].
  rewrite (type_check_passes _ Ht), U, Hy. cbn [negb].
  unfold ApiAny.generic_try, bind, call, try_catch.
  split; [|split].
  - intros message Y. rewrite Y. reflexivity.
  - intros Y. rewrite Y. reflexivity.
  - intros document Y D [F|F]; rewrite Y, D, F; reflexivity.
Qed.

(** X23 at an engine that does not know the site. *)
Lemma any_generic_failure_witness :
  ApiAny.handler (More.engines (Thrown "x") (Thrown "ERROR: Unsupported URL"))
    (Sample.postTo "https://example-unsupported.test/v/1" "video")
  = ([CallYoutubedl "https://example-unsupported.test/v/1" (ApiAny.options "video")],
     Returned (Json 500 (ErrorBody "Generic: ERROR: Unsupported URL"))).
Proof.
  refine (proj1 (any_generic_failure_is_exposed
                   (More.engines (Thrown "x") (Thrown "ERROR: Unsupported URL"))
                   (Sample.post "https://example-unsupported.test/v/1" "video")
                   "https://example-unsupported.test/v/1"
                   eq_refl _ _ eq_refl eq_refl) _ eq_refl).
  - discriminate.
  - left. reflexivity.
Defined.

(** X24.  The handler for any site prints every size in MB with one
    decimal: a size from 1 to 52428 bytes is reported as 0 MB. *)
Theorem any_small_sizes_print_as_zero :
  forall n,
    0 < n <= 52428 ->
    ApiAny.megabytes (Some n) = "0 MB".
Proof.
  intros n H. unfold ApiAny.megabytes.
  replace ((20 * n + 1024 * 1024) / (2 * 1024 * 1024)) with 0
    by (symmetry; apply Z.div_small; lia).
  reflexivity.
Qed.

Lemma any_small_sizes_witness :
  ApiAny.megabytes (Some 40000) = "0 MB".
Proof.
  refine (any_small_sizes_print_as_zero 40000 (conj eq_refl _)). discriminate.
Defined.

(** X25.  In every success (HTTP 200) response of the Express endpoint all
    four fields are present and not empty: title, format and filesize are
    defaulted when the adapter left them empty, and download_url is the
    adapter's link, which was checked. *)
Theorem server_success_fields_not_empty :
  forall env body t payload,
    Server.download env body = (t, Returned (Json 200 payload)) ->
    exists title format filesize link,
      payload = ResolvedDownload title format filesize (Some link)
      /\ title <> EmptyString /\ format <> EmptyString
      /\ filesize <> EmptyString /\ link <> EmptyString.
Proof.
  intros env body t payload H. apply success_shape in H.
  destruct H as (result & L & ->).
  destruct (Server.download_url result) as [[|c l]|]; try discriminate L.
  do 4 eexists. split; [reflexivity|].
  repeat split; try (apply orElse_not_empty); try discriminate.
  destruct (requestedType body =? "audio")%string; discriminate.
Qed.

Lemma server_success_fields_witness :
  exists title format filesize link,
    ResolvedDownload "Video Download" "MP4" "1 MB" (Some "https://cdn.test/video")
      = ResolvedDownload title format filesize (Some link)
    /\ title <> EmptyString /\ format <> EmptyString
    /\ filesize <> EmptyString /\ link <> EmptyString.
Proof.
  exact (server_success_fields_not_empty Sample.untitled (Sample.post Sample.watch "video")
           [CallGetInfo Sample.watch] _ eq_refl).
Defined.
